(** * The orchestration-and-fallback layer of the multi-agent financial advisor

    A shallow embedding of [financial_advisor_multiagent.py] and
    [financial_advisor_agentcore.py]:

    - Python text is a [string]; its characters are the code points below 256,
      and [str.strip], [str.lower], [in] and slicing follow CPython on them;
    - Python objects that cross the request boundary are values of [pyval];
    - a raised exception is a value of [exn]: its class and what [str(e)] gives.
      The classes are those deriving from [Exception], which is what the
      [except] clauses of the two modules dispatch on;
    - a function that calls out (to a model, to the search provider, to the
      clock) is a program of [Prog]: a finite tree of calls whose answers are
      supplied by a stateful [World].  Running a program returns its result,
      the calls it made in order with their answers, and the final state.
    - writes to the log are not modelled: they never change a result. *)

From Stdlib Require Import String Ascii List ZArith Bool Arith Lia DecimalString.
Import ListNotations.
Set Warnings "-register-all,-abstract-large-number".
Local Open Scope list_scope.
Local Open Scope string_scope.

(* ================================================================== *)
(** * Python text *)
(* ================================================================== *)

Module PyStr.

(** The two characters that cannot be written inside a literal. *)
Definition dq : string := String "034"%char EmptyString.
Definition nl : string := String "010"%char EmptyString.

(** [c.isspace()]: the ASCII white space 9-13 and 28-32, NEL and NBSP. *)
Definition isspace (c : ascii) : bool :=
  let n := nat_of_ascii c in
  (((9 <=? n) && (n <=? 13)) || ((28 <=? n) && (n <=? 32))
   || (n =? 133) || (n =? 160))%nat.

(** [c.lower()]: A-Z, and the Latin-1 capitals 192-222 except the
    multiplication sign 215, move up by 32. *)
Definition lower_char (c : ascii) : ascii :=
  let n := nat_of_ascii c in
  if (((65 <=? n) && (n <=? 90))
      || ((192 <=? n) && (n <=? 222) && negb (n =? 215)))%nat
  then ascii_of_nat (n + 32) else c.

Fixpoint lower (s : string) : string :=
  match s with
  | EmptyString => EmptyString
  | String c s' => String (lower_char c) (lower s')
  end.

Definition is_empty (s : string) : bool :=
  match s with EmptyString => true | String _ _ => false end.

Fixpoint lstrip (s : string) : string :=
  match s with
  | EmptyString => EmptyString
  | String c s' => if isspace c then lstrip s' else s
  end.

Fixpoint rstrip (s : string) : string :=
  match s with
  | EmptyString => EmptyString
  | String c s' =>
      let r := rstrip s' in
      if isspace c && is_empty r then EmptyString else String c r
  end.

(** [s.strip()] *)
Definition strip (s : string) : string := rstrip (lstrip s).

Fixpoint startswith (p s : string) : bool :=
  match p, s with
  | EmptyString, _ => true
  | String _ _, EmptyString => false
  | String a p', String b s' => Ascii.eqb a b && startswith p' s'
  end.

(** [p in s] *)
Fixpoint contains (p s : string) : bool :=
  startswith p s
  || match s with
     | EmptyString => false
     | String _ s' => contains p s'
     end.

(** [s[:n]] for a non-negative [n] *)
Fixpoint slice_to (n : nat) (s : string) : string :=
  match n, s with
  | S n', String c s' => String c (slice_to n' s')
  | _, _ => EmptyString
  end.

(** [str(z)] for an [int] *)
Definition str_of_int (z : Z) : string := NilZero.string_of_int (Z.to_int z).

(** [c * n] *)
Fixpoint repeat (c : ascii) (n : nat) : string :=
  match n with
  | O => EmptyString
  | S n' => String c (repeat c n')
  end.

End PyStr.

(* ================================================================== *)
(** * Python values and exceptions *)
(* ================================================================== *)

Module Py.

(** The objects a decoded request can hold, and the ones the envelopes are
    built from.  [VObj t] stands for any other object (a float, a tuple, an
    instance): all the code ever asks of it is its truth value [t]. *)
Inductive pyval : Type :=
| VNone
| VBool (b : bool)
| VInt (z : Z)
| VStr (s : string)
| VList (l : list pyval)
| VDict (d : list (string * pyval))
| VObj (truth : bool).

(** [bool(v)] *)
Definition truthy (v : pyval) : bool :=
  match v with
  | VNone => false
  | VBool b => b
  | VInt z => negb (Z.eqb z 0)
  | VStr s => negb (PyStr.is_empty s)
  | VList l => match l with [] => false | _ :: _ => true end
  | VDict d => match d with [] => false | _ :: _ => true end
  | VObj t => t
  end.

(** [isinstance(v, str)] and [isinstance(v, dict)] *)
Definition is_str (v : pyval) : bool :=
  match v with VStr _ => true | _ => false end.
Definition is_dict (v : pyval) : bool :=
  match v with VDict _ => true | _ => false end.

(** [d[key]] on the items of a dictionary *)
Fixpoint lookup (key : string) (d : list (string * pyval)) : option pyval :=
  match d with
  | [] => None
  | (k, v) :: d' => if String.eqb k key then Some v else lookup key d'
  end.

(** [d.get(key, default)] *)
Definition get (d : list (string * pyval)) (key : string) (default : pyval) : pyval :=
  match lookup key d with Some v => v | None => default end.

(** [v[key]] when [v] is a dictionary *)
Definition field (key : string) (v : pyval) : option pyval :=
  match v with VDict d => lookup key d | _ => None end.

(** Exception classes, as far as the [except] clauses of the two modules
    tell them apart.  The ten named classes are those a clause names, and
    [OSError], the base of three of them.  A class deriving from a named one
    is taken by the clauses of its base and stands here as that base;
    [UserError name] is any class that derives from none of the classes a
    clause names, so that only [except Exception] takes it, and [name] is
    what [type(e).__name__] gives. *)
Inductive pyclass : Type :=
| Exception
| TypeError
| ValueError
| MemoryError
| OSError
| ConnectionError
| TimeoutError
| PermissionError
| DuckDuckGoSearchException
| RatelimitException
| UserError (name : string).

(** The base class: [OSError] for the three operating-system errors,
    [DuckDuckGoSearchException] for [RatelimitException]. *)
Definition base (c : pyclass) : option pyclass :=
  match c with
  | Exception => None
  | ConnectionError | TimeoutError | PermissionError => Some OSError
  | RatelimitException => Some DuckDuckGoSearchException
  | _ => Some Exception
  end.

Definition class_eqb (c d : pyclass) : bool :=
  match c, d with
  | Exception, Exception
  | TypeError, TypeError
  | ValueError, ValueError
  | MemoryError, MemoryError
  | OSError, OSError
  | ConnectionError, ConnectionError
  | TimeoutError, TimeoutError
  | PermissionError, PermissionError
  | DuckDuckGoSearchException, DuckDuckGoSearchException
  | RatelimitException, RatelimitException => true
  | UserError n, UserError m => String.eqb n m
  | _, _ => false
  end.

(** [issubclass(c, d)]: walk up the bases; no chain is longer than three. *)
Fixpoint issubclass_upto (fuel : nat) (c d : pyclass) : bool :=
  class_eqb c d
  || match fuel with
     | O => false
     | S fuel' =>
         match base c with
         | Some b => issubclass_upto fuel' b d
         | None => false
         end
     end.

Definition issubclass (c d : pyclass) : bool := issubclass_upto 3 c d.

(** [type(e).__name__] *)
Definition class_name (c : pyclass) : string :=
  match c with
  | Exception => "Exception"
  | TypeError => "TypeError"
  | ValueError => "ValueError"
  | MemoryError => "MemoryError"
  | OSError => "OSError"
  | ConnectionError => "ConnectionError"
  | TimeoutError => "TimeoutError"
  | PermissionError => "PermissionError"
  | DuckDuckGoSearchException => "DuckDuckGoSearchException"
  | RatelimitException => "RatelimitException"
  | UserError name => name
  end.

(** An exception instance: its class and the text of [str(e)]. *)
Record exn : Type := mk_exn { exn_class : pyclass; exn_str : string }.

Definition isinstance (e : exn) (c : pyclass) : bool :=
  issubclass (exn_class e) c.

(** What a call does: it returns a value or raises. *)
Inductive Result (A : Type) : Type :=
| Returned (a : A)
| Raised (e : exn).
Arguments Returned {A} a.
Arguments Raised {A} e.

End Py.
Import Py.

(* ================================================================== *)
(** * Programs that call out *)
(* ================================================================== *)

Module Eff.

(** A program over calls [E] answered in [R]: it returns, raises, makes a
    call and goes on with the answer, or reads the clock. *)
Inductive Prog (E R A : Type) : Type :=
| Ret (a : A)
| Raise (e : exn)
| Call (ev : E) (k : Result R -> Prog E R A)
| Tick (k : string -> Prog E R A).
Arguments Ret {E R A} a.
Arguments Raise {E R A} e.
Arguments Call {E R A} ev k.
Arguments Tick {E R A} k.

Section Combinators.
Context {E R : Type}.

Fixpoint bind {A B : Type} (m : Prog E R A) (f : A -> Prog E R B) : Prog E R B :=
  match m with
  | Ret a => f a
  | Raise e => Raise e
  | Call ev k => Call ev (fun r => bind (k r) f)
  | Tick k => Tick (fun t => bind (k t) f)
  end.

(** One call: its value, or its exception raised here. *)
Definition call (ev : E) : Prog E R R :=
  Call ev (fun r => match r with Returned v => Ret v | Raised e => Raise e end).

(** [datetime.now(timezone.utc).isoformat()] *)
Definition now : Prog E R string := Tick (fun t => Ret t).

Definition of_result {A : Type} (r : Result A) : Prog E R A :=
  match r with Returned a => Ret a | Raised e => Raise e end.

(** The [except] clauses of a [try], in order: the first whose class the
    exception is an instance of handles it. *)
Definition handlers (A : Type) : Type := list (pyclass * (exn -> Prog E R A)).

Fixpoint find_handler {A : Type} (e : exn) (hs : handlers A) : option (Prog E R A) :=
  match hs with
  | [] => None
  | (c, h) :: hs' => if isinstance e c then Some (h e) else find_handler e hs'
  end.

(** [try: m except ...]: an exception no clause matches goes on up. *)
Fixpoint try_except {A : Type} (m : Prog E R A) (hs : handlers A) : Prog E R A :=
  match m with
  | Ret a => Ret a
  | Raise e => match find_handler e hs with Some h => h | None => Raise e end
  | Call ev k => Call ev (fun r => try_except (k r) hs)
  | Tick k => Tick (fun t => try_except (k t) hs)
  end.

(** How one turn of a [for] body ends: [continue], or [return a]. *)
Inductive LoopStep (A : Type) : Type :=
| Continue
| Return (a : A).
Arguments Continue {A}.
Arguments Return {A} a.

(** [for x in xs: body] followed by [rest]. *)
Fixpoint for_each {X A : Type} (xs : list X) (body : X -> Prog E R (LoopStep A))
         (rest : Prog E R A) : Prog E R A :=
  match xs with
  | [] => rest
  | x :: xs' =>
      bind (body x) (fun s =>
        match s with
        | Return a => Ret a
        | Continue => for_each xs' body rest
        end)
  end.

End Combinators.
Arguments Continue {A}.
Arguments Return {A} a.

(** The outside of a program: how calls are answered and what the clock
    shows, both from a state [S] that every answer may change. *)
Record World (E R S : Type) : Type := mk_world {
  respond : E -> S -> Result R * S;
  clock : S -> string * S
}.
Arguments mk_world {E R S} respond clock.
Arguments respond {E R S} w ev st.
Arguments clock {E R S} w st.

(** A run: the result, the calls made with their answers, the last state. *)
Definition Trace (E R : Type) : Type := list (E * Result R).

Fixpoint run {E R S A : Type} (w : World E R S) (m : Prog E R A) (st : S)
  : Result A * Trace E R * S :=
  match m with
  | Ret a => (Returned a, [], st)
  | Raise e => (Raised e, [], st)
  | Call ev k =>
      let '(r, st1) := respond w ev st in
      let '(res, tr, st2) := run w (k r) st1 in
      (res, (ev, r) :: tr, st2)
  | Tick k =>
      let '(t, st1) := clock w st in
      run w (k t) st1
  end.

Definition result_of {E R S A : Type} (x : Result A * Trace E R * S) : Result A :=
  fst (fst x).
Definition trace_of {E R S A : Type} (x : Result A * Trace E R * S) : Trace E R :=
  snd (fst x).

End Eff.
Import Eff.

Notation "x <- m ;; k" := (bind m (fun x => k))
  (at level 61, m at next level, right associativity).

(* ================================================================== *)
(** * financial_advisor_multiagent.py *)
(* ================================================================== *)

Module Multiagent.

Definition TOKEN_CAP : Z := 2000.

(** The agent objects: the four specialists of [_agents] and the
    orchestrator's own [self.agent]. *)
Inductive Agent : Type :=
| market_intelligence
| strategy_architect
| execution_planner
| risk_assessor
| coordinator.

(** One evaluation of [str(agent(prompt, **kwargs))]: it answers with the
    text, or raises what the call or the conversion raised. *)
Record AgentCall : Type := agent_call {
  callee : Agent;
  prompt_of : string;
  kwargs_of : list (string * pyval)
}.

Definition AgentProg : Type -> Type := Prog AgentCall string.

Definition invoke_agent (agent : Agent) (prompt : string) (max_tokens : Z)
  : AgentProg string :=
  for_each
    [ [("max_output_tokens", VInt max_tokens)];
      [("max_tokens", VInt max_tokens)];
      [("generation_config", VDict [("max_output_tokens", VInt max_tokens)])];
      [("inference_params", VDict [("max_tokens", VInt max_tokens)])] ]
    (fun kwargs =>
       try_except
         (s <- call (agent_call agent prompt kwargs) ;; Ret (Return s))
         [ (TypeError, fun _ => Ret Continue);
           (Exception, fun e =>
              Ret (Return ("Agent invocation error: " ++ exn_str e))) ])
    (try_except
       (call (agent_call agent prompt []))
       [ (Exception, fun e =>
            Ret ("Agent invocation error (no-kwargs): " ++ exn_str e)) ]).

(** One evaluation of [DDGS().text(keywords, region=..., max_results=...)]. *)
Record SearchCall : Type := search_call {
  keywords_of : string;
  region_of : string;
  max_results_of : option Z
}.

Definition websearch (keywords region : string) (max_results : option Z)
  : Prog SearchCall pyval pyval :=
  try_except
    (results <- call (search_call keywords region max_results) ;;
     Ret (if truthy results then results else VStr "No results found."))
    [ (RatelimitException, fun _ =>
         Ret (VStr "RatelimitException: Please try again after a short delay."));
      (DuckDuckGoSearchException, fun d =>
         Ret (VStr ("DuckDuckGoSearchException: " ++ exn_str d)));
      (Exception, fun e =>
         Ret (VStr ("Exception: " ++ exn_str e))) ].

(** ** The four specialist tools *)

Definition market_intel_prompt (ticker : string) (lookback_days : Z) : string :=
  "Research " ++ ticker ++ " for the last " ++ PyStr.str_of_int lookback_days ++ " days. "
  ++ "Use `websearch` to find SEC filings, reputable news, and analyst commentary. "
  ++ "Provide sources and a concise market summary. "
  ++ "End with: " ++ PyStr.dq
  ++ "This analysis is for educational purposes only and does not constitute financial advice."
  ++ PyStr.dq.

Definition market_intel_tool (ticker : string) (lookback_days : Z) : AgentProg string :=
  invoke_agent market_intelligence (market_intel_prompt ticker lookback_days) TOKEN_CAP.

Definition strategy_architect_prompt (ticker risk_attitude horizon : string) : string :=
  "Based on market context for " ++ ticker ++ ", generate 5 distinct strategies. "
  ++ "Align to risk attitude: " ++ risk_attitude ++ "; and horizon: " ++ horizon ++ ". "
  ++ "For each: objective, thesis, entry/exit, risk, and expected conditions. "
  ++ "End with: " ++ PyStr.dq
  ++ "These strategies are for educational purposes only and do not constitute financial advice."
  ++ PyStr.dq.

Definition strategy_architect_tool (ticker risk_attitude horizon : string)
  : AgentProg string :=
  invoke_agent strategy_architect
    (strategy_architect_prompt ticker risk_attitude horizon) TOKEN_CAP.

Definition execution_planner_prompt (ticker strategy_summary : string) : string :=
  "Convert the following strategy summary for " ++ ticker
  ++ " into a detailed execution plan:" ++ PyStr.nl ++ PyStr.nl
  ++ strategy_summary ++ PyStr.nl ++ PyStr.nl
  ++ "Include order types, sizing, timing windows, and risk controls (stops, limits, hedges). "
  ++ "End with: " ++ PyStr.dq
  ++ "This execution plan is for educational purposes only and does not constitute financial advice."
  ++ PyStr.dq.

Definition execution_planner_tool (ticker strategy_summary : string)
  : AgentProg string :=
  invoke_agent execution_planner
    (execution_planner_prompt ticker strategy_summary) TOKEN_CAP.

Definition risk_assessor_prompt
  (ticker market_summary strategies_summary execution_plan : string) : string :=
  "Evaluate overall risk for " ++ ticker ++ ". Consider:" ++ PyStr.nl
  ++ "- Market summary:" ++ PyStr.nl ++ market_summary ++ PyStr.nl ++ PyStr.nl
  ++ "- Strategies summary:" ++ PyStr.nl ++ strategies_summary ++ PyStr.nl ++ PyStr.nl
  ++ "- Execution plan:" ++ PyStr.nl ++ execution_plan ++ PyStr.nl ++ PyStr.nl
  ++ "Identify misalignments, key risks, and actionable mitigations. "
  ++ "End with: " ++ PyStr.dq
  ++ "This risk assessment is for educational purposes only and does not constitute financial advice."
  ++ PyStr.dq.

Definition risk_assessor_tool
  (ticker market_summary strategies_summary execution_plan : string)
  : AgentProg string :=
  invoke_agent risk_assessor
    (risk_assessor_prompt ticker market_summary strategies_summary execution_plan)
    TOKEN_CAP.

(** ** FinancialAdvisorOrchestrator *)

(** [str(self.agent(user_query))]: one bare call, nothing caught. *)
Definition analyze (user_query : string) : AgentProg string :=
  call (agent_call coordinator user_query []).

Definition get_market_analysis (ticker : string) (lookback_days : Z) : AgentProg string :=
  market_intel_tool ticker lookback_days.

Definition get_strategies (ticker risk_attitude horizon : string) : AgentProg string :=
  strategy_architect_tool ticker risk_attitude horizon.

Definition get_execution_plan (ticker strategy_summary : string) : AgentProg string :=
  execution_planner_tool ticker strategy_summary.

Definition get_risk_assessment
  (ticker market_summary strategies_summary execution_plan : string)
  : AgentProg string :=
  risk_assessor_tool ticker market_summary strategies_summary execution_plan.

Definition run_complete_analysis
  (ticker risk_attitude horizon : string) (lookback_days : Z) : AgentProg pyval :=
  market_analysis <- get_market_analysis ticker lookback_days ;;
  strategies <- get_strategies ticker risk_attitude horizon ;;
  execution_plan <- get_execution_plan ticker (PyStr.slice_to 2000 strategies) ;;
  risk_assessment <-
    get_risk_assessment ticker
      (PyStr.slice_to 2000 market_analysis)
      (PyStr.slice_to 2000 strategies)
      (PyStr.slice_to 2000 execution_plan) ;;
  Ret (VDict
         [ ("ticker", VStr ticker);
           ("risk_attitude", VStr risk_attitude);
           ("horizon", VStr horizon);
           ("market_analysis", VStr market_analysis);
           ("strategies", VStr strategies);
           ("execution_plan", VStr execution_plan);
           ("risk_assessment", VStr risk_assessment) ]).

End Multiagent.
Import Multiagent.

(* ================================================================== *)
(** * financial_advisor_agentcore.py *)
(* ================================================================== *)

Module Agentcore.

Definition MAX_INPUT_LENGTH : nat := 5000.

Definition suspicious_patterns : list string :=
  [ "<script"; "javascript:"; "eval("; "exec("; "__import__"; "subprocess"; "os.system" ].

Definition missing_prompt_message : string :=
  "Please provide a financial advisory request. "
  ++ "Include ticker symbol, risk tolerance (Conservative/Moderate/Aggressive), "
  ++ "and investment horizon (Short-term/Medium-term/Long-term) for best results. "
  ++ "Example: 'Analyze AAPL stock for moderate risk investor with long-term horizon'".

Definition not_a_string_message : string :=
  "The 'prompt' field must be a string containing your financial query".

Definition too_long_message : string :=
  "Query too long. Maximum " ++ PyStr.str_of_int (Z.of_nat MAX_INPUT_LENGTH)
  ++ " characters allowed.".

Definition suspicious_message : string :=
  "Invalid characters detected in query. Please provide a standard financial advisory request.".

Definition whitespace_only_message : string :=
  "Please provide a non-empty financial advisory request. "
  ++ "Include ticker symbol, risk tolerance, and investment horizon for best results.".

Definition raise_ValueError {A : Type} (msg : string) : Result A :=
  Raised (mk_exn ValueError msg).

Definition process_agentcore_payload (payload : pyval) : Result string :=
  match payload with
  | VDict items =>
      let user_query := get items "prompt" (VStr "") in
      if negb (truthy user_query) then raise_ValueError missing_prompt_message
      else
        match user_query with
        | VStr text =>
            let processed_query := PyStr.strip text in
            if (MAX_INPUT_LENGTH <? String.length processed_query)%nat
            then raise_ValueError too_long_message
            else
              let query_lower := PyStr.lower processed_query in
              if existsb (fun pattern => PyStr.contains pattern query_lower)
                   suspicious_patterns
              then raise_ValueError suspicious_message
              else if PyStr.is_empty processed_query
              then raise_ValueError whitespace_only_message
              else Returned processed_query
        | _ => raise_ValueError not_a_string_message
        end
  | _ => raise_ValueError "Payload must be a dictionary"
  end.

Definition system_name : string := "financial-advisor-multiagent".

(** The success envelope; the clock is read once for [timestamp] and once
    more for [processing_timestamp]. *)
Definition format_agentcore_response (advisor_response : string) : AgentProg pyval :=
  let response_length :=
    if negb (PyStr.is_empty advisor_response)
    then Z.of_nat (String.length advisor_response) else 0%Z in
  timestamp <- now ;;
  processing_timestamp <- now ;;
  Ret (VDict
    [ ("result", VStr advisor_response);
      ("timestamp", VStr timestamp);
      ("system", VStr system_name);
      ("metadata", VDict
         [ ("version", VStr "1.0.0");
           ("agent_type", VStr "financial_advisor");
           ("educational_disclaimer", VBool true);
           ("response_format", VStr "structured_analysis");
           ("capabilities", VList
              [ VStr "market_intelligence"; VStr "strategy_development";
                VStr "execution_planning"; VStr "risk_assessment" ]);
           ("disclaimer", VStr "Educational purposes only - not licensed financial advice");
           ("response_stats", VDict
              [ ("character_count", VInt response_length);
                ("processing_timestamp", VStr processing_timestamp) ]) ]) ]).

(** [advisor.analyze] under a handler that logs and raises again. *)
Definition invoke_financial_advisor_with_logging (user_query : string)
  : AgentProg string :=
  try_except
    (response <- analyze user_query ;; Ret response)
    [ (Exception, fun e => Raise e) ].

(** The shape shared by the nine error envelopes. *)
Definition error_envelope (error_message error_type : string)
           (metadata : list (string * pyval)) : AgentProg pyval :=
  timestamp <- now ;;
  Ret (VDict
    [ ("error", VStr error_message);
      ("error_type", VStr error_type);
      ("timestamp", VStr timestamp);
      ("system", VStr system_name);
      ("metadata", VDict metadata) ]).

Definition invoke (payload : pyval) : AgentProg pyval :=
  try_except
    (user_query <- of_result (process_agentcore_payload payload) ;;
     response <- invoke_financial_advisor_with_logging user_query ;;
     formatted_response <- format_agentcore_response response ;;
     Ret formatted_response)
    [ (ValueError, fun e =>
         error_envelope ("Invalid request format: " ++ exn_str e) "validation_error"
           [ ("error_category", VStr "payload_validation");
             ("recoverable", VBool true);
             ("suggestion", VStr "Please check your request format and try again") ]);
      (RatelimitException, fun _ =>
         error_envelope
           "Web search rate limit exceeded. Please try again after a short delay."
           "rate_limit_error"
           [ ("error_category", VStr "web_search_rate_limit");
             ("recoverable", VBool true);
             ("retry_after_seconds", VInt 60);
             ("existing_mechanism",
               VStr "websearch() tool handles RatelimitException gracefully");
             ("suggestion", VStr "Please wait a minute and try your request again") ]);
      (DuckDuckGoSearchException, fun _ =>
         error_envelope
           "Web search service temporarily unavailable. Analysis may be limited."
           "web_search_error"
           [ ("error_category", VStr "web_search_failure");
             ("recoverable", VBool true);
             ("fallback_available", VBool true);
             ("existing_mechanism",
               VStr "websearch() tool handles DuckDuckGoSearchException with informative error messages");
             ("suggestion", VStr "The system will attempt analysis with available data") ]);
      (TypeError, fun _ =>
         error_envelope
           "Agent configuration error. Using fallback mechanisms."
           "agent_parameter_error"
           [ ("error_category", VStr "agent_invocation");
             ("recoverable", VBool true);
             ("fallback_engaged", VBool true);
             ("existing_mechanism",
               VStr "invoke_agent() function tries multiple parameter formats for model compatibility");
             ("fallback_sequence", VList
                [ VStr "max_output_tokens"; VStr "max_tokens"; VStr "generation_config";
                  VStr "inference_params"; VStr "no-kwargs" ]);
             ("suggestion",
               VStr "The system is using fallback mechanisms to process your request") ]);
      (MemoryError, fun _ =>
         error_envelope
           "Request too large. Please try with a shorter query."
           "memory_error"
           [ ("error_category", VStr "token_limit_exceeded");
             ("recoverable", VBool true);
             ("suggestion", VStr "Please shorten your query and try again") ]);
      (ConnectionError, fun _ =>
         error_envelope
           "Network connectivity issue. Please try again."
           "connection_error"
           [ ("error_category", VStr "network_connectivity");
             ("recoverable", VBool true);
             ("suggestion", VStr "Please check your connection and try again") ]);
      (TimeoutError, fun _ =>
         error_envelope
           "Request timeout. The analysis is taking longer than expected."
           "timeout_error"
           [ ("error_category", VStr "request_timeout");
             ("recoverable", VBool true);
             ("suggestion", VStr "Please try again or simplify your request") ]);
      (PermissionError, fun _ =>
         error_envelope
           "Access denied. Please check your permissions."
           "permission_error"
           [ ("error_category", VStr "access_control");
             ("recoverable", VBool false);
             ("suggestion",
               VStr "Please contact support if you believe this is an error") ]);
      (Exception, fun e =>
         error_envelope
           "An unexpected error occurred processing your financial advisory request"
           "system_error"
           [ ("error_category", VStr "system_error");
             ("error_class", VStr (class_name (exn_class e)));
             ("recoverable", VBool false);
             ("suggestion",
               VStr "Please try again later or contact support if the issue persists") ]) ].

End Agentcore.
Import Agentcore.

(* ================================================================== *)
(** * Vocabulary of the statements *)
(* ================================================================== *)

Module Observations.

(** One turn of the loop of [invoke_agent], and what follows the loop. *)
Definition keyed_attempt (agent : Agent) (prompt : string)
           (kwargs : list (string * pyval)) : AgentProg (LoopStep string) :=
  try_except
    (s <- call (agent_call agent prompt kwargs) ;; Ret (Return s))
    [ (TypeError, fun _ => Ret Continue);
      (Exception, fun e => Ret (Return ("Agent invocation error: " ++ exn_str e))) ].

Definition bare_attempt (agent : Agent) (prompt : string) : AgentProg string :=
  try_except
    (call (agent_call agent prompt []))
    [ (Exception, fun e => Ret ("Agent invocation error (no-kwargs): " ++ exn_str e)) ].

(** From state [st] the agent answers the calls with the shapes [kws], one
    after the other, by the shape-mismatch errors [errs], and is then in
    state [st']. *)
Fixpoint shape_mismatches {S : Type} (w : World AgentCall string S)
         (agent : Agent) (prompt : string)
         (kws : list (list (string * pyval))) (errs : list exn)
         (st st' : S) : Prop :=
  match kws, errs with
  | [], [] => st' = st
  | kw :: kws', e :: errs' =>
      isinstance e TypeError = true
      /\ exists st1,
           respond w (agent_call agent prompt kw) st = (Raised e, st1)
           /\ shape_mismatches w agent prompt kws' errs' st1 st'
  | _, _ => False
  end.

(** The trace those failed attempts leave. *)
Definition failed_attempts (agent : Agent) (prompt : string)
           (kws : list (list (string * pyval))) (errs : list exn)
  : Trace AgentCall string :=
  map (fun x => (agent_call agent prompt (fst x), Raised (snd x))) (combine kws errs).

(** Every call of a trace goes to [agent] with the prompt [prompt]. *)
Definition all_to (agent : Agent) (prompt : string) (tr : Trace AgentCall string) : Prop :=
  Forall (fun x => callee (fst x) = agent /\ prompt_of (fst x) = prompt) tr.

(** [text] is what an attempt answered by [r] is turned into: the text
    itself, or one of the two failure messages around [str(e)]. *)
Definition rendering (r : Result string) (text : string) : Prop :=
  match r with
  | Returned s => text = s
  | Raised e =>
      text = "Agent invocation error: " ++ exn_str e
      \/ text = "Agent invocation error (no-kwargs): " ++ exn_str e
  end.

(** [y] is [x] cut to its first [n] characters. *)
Definition prefix_cut (n : nat) (x y : string) : Prop :=
  (String.length y <= n)%nat
  /\ ((n < String.length x)%nat ->
      String.length y = n /\ exists rest, x = y ++ rest)
  /\ ((String.length x <= n)%nat -> y = x).

(** A prompt the boundary lets through: trimmed, it is non-empty, within
    the length limit and, lowercased, free of every deny-listed pattern. *)
Definition acceptable (text : string) : Prop :=
  let q := PyStr.strip text in
  q <> EmptyString
  /\ (String.length q <= MAX_INPUT_LENGTH)%nat
  /\ forall pattern, In pattern suspicious_patterns ->
       PyStr.contains pattern (PyStr.lower q) = false.

(** Every character of [s] is white space. *)
Fixpoint all_space (s : string) : bool :=
  match s with
  | EmptyString => true
  | String c s' => PyStr.isspace c && all_space s'
  end.

(** The first, and the last, character of a pattern is not white space. *)
Definition first_not_space (p : string) : bool :=
  match p with
  | EmptyString => false
  | String a _ => negb (PyStr.isspace a)
  end.

Fixpoint last_not_space (p : string) : bool :=
  match p with
  | EmptyString => false
  | String a EmptyString => negb (PyStr.isspace a)
  | String _ p' => last_not_space p'
  end.

(** The validator raises a [ValueError], and [invoke], without calling the
    model, answers with an envelope of type [validation_error] that carries
    the message. *)
Definition rejected_as_validation_error (payload : pyval) : Prop :=
  exists e,
    process_agentcore_payload payload = Raised e
    /\ exn_class e = ValueError
    /\ forall (S : Type) (w : World AgentCall string S) (st : S),
       exists (envelope : pyval) (st' : S),
         run w (invoke payload) st = (Returned envelope, [], st')
         /\ field "error_type" envelope = Some (VStr "validation_error")
         /\ field "error" envelope
            = Some (VStr ("Invalid request format: " ++ exn_str e)).

(** ** Stand-ins for the outside, for the concrete runs *)

(** A model that rejects every keyed shape and answers a bare call. *)
Definition bare_only : World AgentCall string unit :=
  mk_world
    (fun ev st =>
       match kwargs_of ev with
       | [] => (Returned "plain answer", st)
       | _ :: _ => (Raised (mk_exn TypeError "unexpected keyword argument"), st)
       end)
    (fun st => ("2025-01-01T00:00:00+00:00", st)).

(** A model that counts its calls and answers with the callee's name;
    the strategy architect answers with 2500 characters. *)
Definition agent_name (a : Agent) : string :=
  match a with
  | market_intelligence => "market"
  | strategy_architect => PyStr.repeat "s"%char 2500
  | execution_planner => "execution"
  | risk_assessor => "risk"
  | coordinator => "advice"
  end.

Definition echo : World AgentCall string nat :=
  mk_world
    (fun ev st => (Returned (agent_name (callee ev)), S st))
    (fun st => ("2025-01-01T00:00:00+00:00", st)).

(** A model that accepts only the third shape, and fails for good when
    asked about the market. *)
Definition third_shape_only : World AgentCall string nat :=
  mk_world
    (fun ev st =>
       match callee ev, kwargs_of ev with
       | market_intelligence, _ =>
           (Raised (mk_exn (UserError "ThrottlingException") "rate exceeded"), S st)
       | _, [(name, VDict _)] =>
           if String.eqb name "generation_config"
           then (Returned "third shape accepted", S st)
           else (Raised (mk_exn TypeError "unexpected keyword argument"), S st)
       | _, _ => (Raised (mk_exn TypeError "unexpected keyword argument"), S st)
       end)
    (fun st => ("2025-01-01T00:00:00+00:00", st)).

(** A search provider that answers by what its state says. *)
Definition provider : World SearchCall pyval (Result pyval) :=
  mk_world (fun _ st => (st, st)) (fun st => ("2025-01-01T00:00:00+00:00", st)).

End Observations.
Import Observations.

(* ================================================================== *)
(** * Vocabulary of the further statements *)
(* ================================================================== *)

Module Envelopes.

(** What every answer of [invoke] looks like: a dictionary with [system],
    [timestamp] and a [metadata] dictionary, and either a [result] text and
    no [error], or an [error] text with its [error_type] and no [result]. *)
Definition well_formed_envelope (v : pyval) : Prop :=
  field "system" v = Some (VStr "financial-advisor-multiagent")
  /\ (exists t, field "timestamp" v = Some (VStr t))
  /\ (exists m, field "metadata" v = Some (VDict m))
  /\ ((exists text, field "result" v = Some (VStr text))
        /\ field "error" v = None /\ field "error_type" v = None
      \/ (exists msg ty, field "error" v = Some (VStr msg)
                          /\ field "error_type" v = Some (VStr ty))
        /\ field "result" v = None).

(** The five calls [invoke_agent] can make, in the order it makes them. *)
Definition attempts (agent : Agent) (prompt : string) (max_tokens : Z)
  : list AgentCall :=
  [ agent_call agent prompt [("max_output_tokens", VInt max_tokens)];
    agent_call agent prompt [("max_tokens", VInt max_tokens)];
    agent_call agent prompt
      [("generation_config", VDict [("max_output_tokens", VInt max_tokens)])];
    agent_call agent prompt
      [("inference_params", VDict [("max_tokens", VInt max_tokens)])];
    agent_call agent prompt [] ].

(** The classes [invoke] has a clause for, in the order of the clauses,
    the closing [except Exception] left out. *)
Definition own_clause_classes : list pyclass :=
  [ ValueError; RatelimitException; DuckDuckGoSearchException; TypeError;
    MemoryError; ConnectionError; TimeoutError; PermissionError ].

(** A model that answers every call by what its state says. *)
Definition scripted : World AgentCall string (Result string) :=
  mk_world (fun _ st => (st, st)) (fun st => ("2025-01-01T00:00:00+00:00", st)).

End Envelopes.
Import Envelopes.

(* ================================================================== *)
(** * Running programs *)
(* ================================================================== *)

Section RunFacts.
Context {E R S : Type} (w : World E R S).

Lemma run_bind {A B : Type} (m : Prog E R A) (f : A -> Prog E R B) (st : S) :
  run w (bind m f) st =
  match run w m st with
  | (Returned a, tr, st1) =>
      match run w (f a) st1 with
      | (res, tr', st2) => (res, (tr ++ tr')%list, st2)
      end
  | (Raised e, tr, st1) => (Raised e, tr, st1)
  end.
Proof.
  revert st. induction m as [a | e | ev k IH | k IH]; intros st; simpl.
  - destruct (run w (f a) st) as [[res tr'] st2]. reflexivity.
  - reflexivity.
  - destruct (respond w ev st) as [r st1].
    rewrite IH.
    destruct (run w (k r) st1) as [[[a | e] tr] st2].
    + destruct (run w (f a) st2) as [[res tr'] st3]. reflexivity.
    + reflexivity.
  - destruct (clock w st) as [t st1]. apply IH.
Qed.

Lemma run_bind_returned {A B : Type} (m : Prog E R A) (f : A -> Prog E R B)
      (st st1 st2 : S) (a : A) (res : Result B) (tr tr' : Trace E R) :
  run w m st = (Returned a, tr, st1) ->
  run w (f a) st1 = (res, tr', st2) ->
  run w (bind m f) st = (res, (tr ++ tr')%list, st2).
Proof.
  intros Hm Hf. rewrite run_bind, Hm, Hf. reflexivity.
Qed.

Lemma run_call (ev : E) (st : S) :
  run w (call ev) st =
  (fst (respond w ev st), [(ev, fst (respond w ev st))], snd (respond w ev st)).
Proof.
  unfold call. simpl. destruct (respond w ev st) as [[v | e] st1]; reflexivity.
Qed.

End RunFacts.

(* ================================================================== *)
(** * Exception classes *)
(* ================================================================== *)

Lemma isinstance_Exception (e : exn) : isinstance e Exception = true.
Proof.
  destruct e as [c msg]. destruct c; reflexivity.
Qed.

Lemma Ratelimit_is_DuckDuckGo (e : exn) :
  isinstance e RatelimitException = true ->
  isinstance e DuckDuckGoSearchException = true.
Proof.
  destruct e as [c msg]. destruct c; simpl; intros H; try discriminate H; reflexivity.
Qed.

(* ================================================================== *)
(** * invoke_agent *)
(* ================================================================== *)

Section InvokeAgentFacts.
Context {S : Type} (w : World AgentCall string S).
Variables (agent : Agent) (prompt : string).

Lemma invoke_agent_loop (max_tokens : Z) :
  invoke_agent agent prompt max_tokens =
  for_each
    [ [("max_output_tokens", VInt max_tokens)];
      [("max_tokens", VInt max_tokens)];
      [("generation_config", VDict [("max_output_tokens", VInt max_tokens)])];
      [("inference_params", VDict [("max_tokens", VInt max_tokens)])] ]
    (keyed_attempt agent prompt) (bare_attempt agent prompt).
Proof. reflexivity. Qed.

(** One turn of the loop, by the answer to its call. *)
Lemma run_keyed_step (kw : list (string * pyval)) (kws : list (list (string * pyval)))
      (st : S) :
  run w (for_each (kw :: kws) (keyed_attempt agent prompt) (bare_attempt agent prompt)) st =
  match respond w (agent_call agent prompt kw) st with
  | (Returned s, st1) =>
      (Returned s, [(agent_call agent prompt kw, Returned s)], st1)
  | (Raised e, st1) =>
      if isinstance e TypeError
      then
        match run w (for_each kws (keyed_attempt agent prompt) (bare_attempt agent prompt)) st1 with
        | (res, tr, st2) => (res, (agent_call agent prompt kw, Raised e) :: tr, st2)
        end
      else (Returned ("Agent invocation error: " ++ exn_str e),
            [(agent_call agent prompt kw, Raised e)], st1)
  end.
Proof.
  simpl.
  destruct (respond w (agent_call agent prompt kw) st) as [[s | e] st1]; simpl.
  - reflexivity.
  - destruct (isinstance e TypeError); simpl.
    + reflexivity.
    + rewrite isinstance_Exception. reflexivity.
Qed.

Lemma run_bare (st : S) :
  run w (bare_attempt agent prompt) st =
  match respond w (agent_call agent prompt []) st with
  | (Returned s, st1) => (Returned s, [(agent_call agent prompt [], Returned s)], st1)
  | (Raised e, st1) =>
      (Returned ("Agent invocation error (no-kwargs): " ++ exn_str e),
       [(agent_call agent prompt [], Raised e)], st1)
  end.
Proof.
  unfold bare_attempt. simpl.
  destruct (respond w (agent_call agent prompt []) st) as [[s | e] st1]; simpl.
  - reflexivity.
  - rewrite isinstance_Exception. reflexivity.
Qed.

(** The loop stops at the first attempt that is not a shape mismatch. *)
Lemma loop_stops_at (tried later : list (list (string * pyval)))
      (kw : list (string * pyval)) (errs : list exn) (st st1 st2 : S)
      (r : Result string) :
  shape_mismatches w agent prompt tried errs st st1 ->
  respond w (agent_call agent prompt kw) st1 = (r, st2) ->
  (forall e, r = Raised e -> isinstance e TypeError = false) ->
  run w (for_each (tried ++ kw :: later)%list
           (keyed_attempt agent prompt) (bare_attempt agent prompt)) st =
  (Returned match r with
            | Returned s => s
            | Raised e => "Agent invocation error: " ++ exn_str e
            end,
   (failed_attempts agent prompt tried errs ++ [(agent_call agent prompt kw, r)])%list,
   st2).
Proof.
  revert errs st.
  induction tried as [| kw0 tried IH]; intros errs st Hmis Hresp Hother.
  - destruct errs as [| e errs]; simpl in Hmis; [subst st1 | contradiction].
    change (([] ++ kw :: later)%list) with (kw :: later).
    rewrite run_keyed_step, Hresp.
    destruct r as [s | e]; [reflexivity |].
    rewrite (Hother e eq_refl). reflexivity.
  - destruct errs as [| e errs]; simpl in Hmis; [contradiction |].
    destruct Hmis as [Hty [st0 [Hresp0 Hrest]]].
    change (((kw0 :: tried) ++ kw :: later)%list) with (kw0 :: (tried ++ kw :: later))%list.
    rewrite run_keyed_step, Hresp0, Hty.
    rewrite (IH errs st0 Hrest Hresp Hother). reflexivity.
Qed.

(** When every keyed shape is a mismatch the bare call decides. *)
Lemma loop_falls_through (kws : list (list (string * pyval))) (errs : list exn)
      (st st1 st2 : S) (r : Result string) :
  shape_mismatches w agent prompt kws errs st st1 ->
  respond w (agent_call agent prompt []) st1 = (r, st2) ->
  run w (for_each kws (keyed_attempt agent prompt) (bare_attempt agent prompt)) st =
  (Returned match r with
            | Returned s => s
            | Raised e => "Agent invocation error (no-kwargs): " ++ exn_str e
            end,
   (failed_attempts agent prompt kws errs ++ [(agent_call agent prompt [], r)])%list,
   st2).
Proof.
  revert errs st.
  induction kws as [| kw0 kws IH]; intros errs st Hmis Hresp.
  - destruct errs as [| e errs]; simpl in Hmis; [subst st1 | contradiction].
    change (for_each [] (keyed_attempt agent prompt) (bare_attempt agent prompt))
      with (bare_attempt agent prompt).
    rewrite run_bare, Hresp. destruct r; reflexivity.
  - destruct errs as [| e errs]; simpl in Hmis; [contradiction |].
    destruct Hmis as [Hty [st0 [Hresp0 Hrest]]].
    rewrite run_keyed_step, Hresp0, Hty.
    rewrite (IH errs st0 Hrest Hresp). reflexivity.
Qed.

(** The loop always returns a text: no exception leaves it. *)
Lemma loop_returns (kws : list (list (string * pyval))) (st : S) :
  exists (text : string) (tr : Trace AgentCall string) (st' : S),
    run w (for_each kws (keyed_attempt agent prompt) (bare_attempt agent prompt)) st
    = (Returned text, tr, st')
    /\ (1 <= List.length tr <= Datatypes.S (List.length kws))%nat
    /\ all_to agent prompt tr
    /\ exists tr0 ev r, tr = (tr0 ++ [(ev, r)])%list /\ rendering r text.
Proof.
  revert st. induction kws as [| kw kws IH]; intros st.
  - change (for_each [] (keyed_attempt agent prompt) (bare_attempt agent prompt))
      with (bare_attempt agent prompt).
    rewrite run_bare.
    destruct (respond w (agent_call agent prompt []) st) as [[s | e] st1].
    + exists s, [(agent_call agent prompt [], Returned s)], st1.
      repeat split; simpl; try lia.
      * repeat constructor.
      * exists [], (agent_call agent prompt []), (Returned s). split; reflexivity.
    + eexists _, [(agent_call agent prompt [], Raised e)], st1.
      repeat split; simpl; try lia.
      * repeat constructor.
      * exists [], (agent_call agent prompt []), (Raised e).
        split; [reflexivity | right; reflexivity].
  - rewrite run_keyed_step.
    destruct (respond w (agent_call agent prompt kw) st) as [[s | e] st1].
    + exists s, [(agent_call agent prompt kw, Returned s)], st1.
      repeat split; simpl; try lia.
      * repeat constructor.
      * exists [], (agent_call agent prompt kw), (Returned s). split; reflexivity.
    + destruct (isinstance e TypeError).
      * destruct (IH st1) as [text [tr [st' [Hrun [Hlen [Hall [tr0 [ev [r [Htr Hr]]]]]]]]]].
        rewrite Hrun.
        exists text, ((agent_call agent prompt kw, Raised e) :: tr), st'.
        repeat split; simpl; try lia.
        -- constructor; [split; reflexivity | exact Hall].
        -- exists ((agent_call agent prompt kw, Raised e) :: tr0), ev, r.
           split; [rewrite Htr; reflexivity | exact Hr].
      * eexists _, [(agent_call agent prompt kw, Raised e)], st1.
        repeat split; simpl; try lia.
        -- repeat constructor.
        -- exists [], (agent_call agent prompt kw), (Raised e).
           split; [reflexivity | left; reflexivity].
Qed.

Lemma invoke_agent_returns (max_tokens : Z) (st : S) :
  exists (text : string) (tr : Trace AgentCall string) (st' : S),
    run w (invoke_agent agent prompt max_tokens) st = (Returned text, tr, st')
    /\ (1 <= List.length tr <= 5)%nat
    /\ all_to agent prompt tr
    /\ exists tr0 ev r, tr = (tr0 ++ [(ev, r)])%list /\ rendering r text.
Proof.
  rewrite invoke_agent_loop. apply loop_returns.
Qed.

End InvokeAgentFacts.

(** C1.  [invoke_agent] tries the four keyed shapes in the order
    [max_output_tokens], [max_tokens], [generation_config],
    [inference_params].  While the attempts fail with a [TypeError] it goes on
    to the next shape; the first attempt that returns, or fails with anything
    else, ends the run with its text, respectively with that failure rendered
    as text, and no further call is made.  After four shape mismatches there
    is exactly one more call, without optional parameters, and its text (or
    its failure rendered as text) is the result. *)
Theorem invoke_agent_fallback_order :
  forall (S : Type) (w : World AgentCall string S) (agent : Agent)
         (prompt : string) (max_tokens : Z) (st : S),
    let keyed :=
      [ [("max_output_tokens", VInt max_tokens)];
        [("max_tokens", VInt max_tokens)];
        [("generation_config", VDict [("max_output_tokens", VInt max_tokens)])];
        [("inference_params", VDict [("max_tokens", VInt max_tokens)])] ] in
    (forall tried kw later errs st1 r st2,
        keyed = (tried ++ kw :: later)%list ->
        shape_mismatches w agent prompt tried errs st st1 ->
        respond w (agent_call agent prompt kw) st1 = (r, st2) ->
        (forall e, r = Raised e -> isinstance e TypeError = false) ->
        run w (invoke_agent agent prompt max_tokens) st =
        (Returned match r with
                  | Returned s => s
                  | Raised e => "Agent invocation error: " ++ exn_str e
                  end,
         (failed_attempts agent prompt tried errs
            ++ [(agent_call agent prompt kw, r)])%list,
         st2))
    /\ (forall errs st1 r st2,
        shape_mismatches w agent prompt keyed errs st st1 ->
        respond w (agent_call agent prompt []) st1 = (r, st2) ->
        run w (invoke_agent agent prompt max_tokens) st =
        (Returned match r with
                  | Returned s => s
                  | Raised e => "Agent invocation error (no-kwargs): " ++ exn_str e
                  end,
         (failed_attempts agent prompt keyed errs
            ++ [(agent_call agent prompt [], r)])%list,
         st2)).
Proof.
  intros S w agent prompt max_tokens st keyed. split.
  - intros tried kw later errs st1 r st2 Hsplit Hmis Hresp Hother.
    rewrite invoke_agent_loop. fold keyed. rewrite Hsplit.
    apply loop_stops_at with (st1 := st1); assumption.
  - intros errs st1 r st2 Hmis Hresp.
    rewrite invoke_agent_loop. fold keyed.
    apply loop_falls_through with (st1 := st1); assumption.
Qed.

(** A model that rejects every keyed shape and answers the bare call: five
    calls in the fixed order, and the text of the bare call.  A model that
    takes the third shape: three calls. *)
Lemma invoke_agent_fallback_order_witness :
  run bare_only (invoke_agent strategy_architect "Analyze AAPL" 2000) tt =
  (Returned "plain answer",
   [ (agent_call strategy_architect "Analyze AAPL" [("max_output_tokens", VInt 2000)],
      Raised (mk_exn TypeError "unexpected keyword argument"));
     (agent_call strategy_architect "Analyze AAPL" [("max_tokens", VInt 2000)],
      Raised (mk_exn TypeError "unexpected keyword argument"));
     (agent_call strategy_architect "Analyze AAPL"
        [("generation_config", VDict [("max_output_tokens", VInt 2000)])],
      Raised (mk_exn TypeError "unexpected keyword argument"));
     (agent_call strategy_architect "Analyze AAPL"
        [("inference_params", VDict [("max_tokens", VInt 2000)])],
      Raised (mk_exn TypeError "unexpected keyword argument"));
     (agent_call strategy_architect "Analyze AAPL" [], Returned "plain answer") ],
   tt)
  /\ run third_shape_only (invoke_agent strategy_architect "Analyze AAPL" 2000) 0 =
     (Returned "third shape accepted",
      [ (agent_call strategy_architect "Analyze AAPL" [("max_output_tokens", VInt 2000)],
         Raised (mk_exn TypeError "unexpected keyword argument"));
        (agent_call strategy_architect "Analyze AAPL" [("max_tokens", VInt 2000)],
         Raised (mk_exn TypeError "unexpected keyword argument"));
        (agent_call strategy_architect "Analyze AAPL"
           [("generation_config", VDict [("max_output_tokens", VInt 2000)])],
         Returned "third shape accepted") ],
      3%nat).
Proof.
  split.
  - apply (proj2 (invoke_agent_fallback_order unit bare_only strategy_architect
                    "Analyze AAPL" 2000 tt)
             [ mk_exn TypeError "unexpected keyword argument";
               mk_exn TypeError "unexpected keyword argument";
               mk_exn TypeError "unexpected keyword argument";
               mk_exn TypeError "unexpected keyword argument" ]
             tt (Returned "plain answer") tt).
    + simpl. repeat (split; [reflexivity | exists tt; split; [reflexivity |]]).
      reflexivity.
    + reflexivity.
  - apply (proj1 (invoke_agent_fallback_order nat third_shape_only strategy_architect
                    "Analyze AAPL" 2000 0%nat)
             [ [("max_output_tokens", VInt 2000)]; [("max_tokens", VInt 2000)] ]
             [("generation_config", VDict [("max_output_tokens", VInt 2000)])]
             [ [("inference_params", VDict [("max_tokens", VInt 2000)])] ]
             [ mk_exn TypeError "unexpected keyword argument";
               mk_exn TypeError "unexpected keyword argument" ]
             2%nat (Returned "third shape accepted") 3%nat).
    + reflexivity.
    + simpl. split; [reflexivity |]. exists 1%nat. split; [reflexivity |].
      split; [reflexivity |]. exists 2%nat. split; reflexivity.
    + reflexivity.
    + intros e He. discriminate He.
Defined.

(** C2.  [invoke_agent] never raises: whatever the model does on each call
    (return, shape mismatch, any other failure, also on the last bare call),
    the run ends by returning a text, after one to five calls; the text is
    the one the last call returned, or a failure message around the
    description of the exception the last call raised. *)
Theorem invoke_agent_never_raises :
  forall (S : Type) (w : World AgentCall string S) (agent : Agent)
         (prompt : string) (max_tokens : Z) (st : S),
  exists (text : string) (tr : Trace AgentCall string) (st' : S),
    run w (invoke_agent agent prompt max_tokens) st = (Returned text, tr, st')
    /\ (1 <= List.length tr <= 5)%nat
    /\ exists tr0 ev r, tr = (tr0 ++ [(ev, r)])%list /\ rendering r text.
Proof.
  intros S w agent prompt max_tokens st.
  destruct (invoke_agent_returns w agent prompt max_tokens st)
    as [text [tr [st' [Hrun [Hlen [_ Hlast]]]]]].
  exists text, tr, st'. repeat split; try assumption; lia.
Qed.

(* ================================================================== *)
(** * Slicing *)
(* ================================================================== *)

Lemma slice_to_length (n : nat) (s : string) :
  String.length (PyStr.slice_to n s) = Nat.min n (String.length s).
Proof.
  revert s. induction n as [| n IH]; intros s.
  - destruct s; reflexivity.
  - destruct s as [| c s]; simpl.
    + reflexivity.
    + rewrite IH. reflexivity.
Qed.

Lemma slice_to_is_prefix (n : nat) (s : string) :
  exists rest, s = PyStr.slice_to n s ++ rest.
Proof.
  revert s. induction n as [| n IH]; intros s.
  - exists s. destruct s; reflexivity.
  - destruct s as [| c s]; simpl.
    + exists EmptyString. reflexivity.
    + destruct (IH s) as [rest Hrest]. exists rest. rewrite <- Hrest. reflexivity.
Qed.

Lemma slice_to_short (n : nat) (s : string) :
  (String.length s <= n)%nat -> PyStr.slice_to n s = s.
Proof.
  revert s. induction n as [| n IH]; intros s Hlen.
  - destruct s; [reflexivity | simpl in Hlen; lia].
  - destruct s as [| c s]; simpl.
    + reflexivity.
    + rewrite IH; [reflexivity | simpl in Hlen; lia].
Qed.

Lemma slice_to_prefix_cut (n : nat) (s : string) :
  prefix_cut n s (PyStr.slice_to n s).
Proof.
  unfold prefix_cut. rewrite slice_to_length. repeat split.
  - lia.
  - lia.
  - apply slice_to_is_prefix.
  - apply slice_to_short.
Qed.

(* ================================================================== *)
(** * run_complete_analysis *)
(* ================================================================== *)

(** The four stages of a run, one after the other. *)
Lemma run_complete_analysis_stages
      {S : Type} (w : World AgentCall string S)
      (ticker risk_attitude horizon : string) (lookback_days : Z) (st : S) :
  exists (market strategies execution risk : string)
         (tr1 tr2 tr3 tr4 : Trace AgentCall string) (st1 st2 st3 st4 : S),
    run w (market_intel_tool ticker lookback_days) st = (Returned market, tr1, st1)
    /\ run w (strategy_architect_tool ticker risk_attitude horizon) st1
       = (Returned strategies, tr2, st2)
    /\ run w (execution_planner_tool ticker (PyStr.slice_to 2000 strategies)) st2
       = (Returned execution, tr3, st3)
    /\ run w (risk_assessor_tool ticker (PyStr.slice_to 2000 market)
                (PyStr.slice_to 2000 strategies) (PyStr.slice_to 2000 execution)) st3
       = (Returned risk, tr4, st4)
    /\ run w (run_complete_analysis ticker risk_attitude horizon lookback_days) st
       = (Returned (VDict
            [ ("ticker", VStr ticker);
              ("risk_attitude", VStr risk_attitude);
              ("horizon", VStr horizon);
              ("market_analysis", VStr market);
              ("strategies", VStr strategies);
              ("execution_plan", VStr execution);
              ("risk_assessment", VStr risk) ]),
          (tr1 ++ tr2 ++ tr3 ++ tr4)%list, st4)
    /\ ((1 <= List.length tr1)%nat
        /\ all_to market_intelligence (market_intel_prompt ticker lookback_days) tr1)
    /\ ((1 <= List.length tr2)%nat
        /\ all_to strategy_architect
             (strategy_architect_prompt ticker risk_attitude horizon) tr2)
    /\ ((1 <= List.length tr3)%nat
        /\ all_to execution_planner
             (execution_planner_prompt ticker (PyStr.slice_to 2000 strategies)) tr3)
    /\ ((1 <= List.length tr4)%nat
        /\ all_to risk_assessor
             (risk_assessor_prompt ticker (PyStr.slice_to 2000 market)
                (PyStr.slice_to 2000 strategies) (PyStr.slice_to 2000 execution)) tr4).
Proof.
  destruct (invoke_agent_returns w market_intelligence
              (market_intel_prompt ticker lookback_days) TOKEN_CAP st)
    as [market [tr1 [st1 [H1 [L1 [A1 _]]]]]].
  destruct (invoke_agent_returns w strategy_architect
              (strategy_architect_prompt ticker risk_attitude horizon) TOKEN_CAP st1)
    as [strategies [tr2 [st2 [H2 [L2 [A2 _]]]]]].
  destruct (invoke_agent_returns w execution_planner
              (execution_planner_prompt ticker (PyStr.slice_to 2000 strategies))
              TOKEN_CAP st2)
    as [execution [tr3 [st3 [H3 [L3 [A3 _]]]]]].
  destruct (invoke_agent_returns w risk_assessor
              (risk_assessor_prompt ticker (PyStr.slice_to 2000 market)
                 (PyStr.slice_to 2000 strategies) (PyStr.slice_to 2000 execution))
              TOKEN_CAP st3)
    as [risk [tr4 [st4 [H4 [L4 [A4 _]]]]]].
  exists market, strategies, execution, risk, tr1, tr2, tr3, tr4, st1, st2, st3, st4.
  split; [exact H1 |]. split; [exact H2 |]. split; [exact H3 |]. split; [exact H4 |].
  split.
  - rewrite <- (app_nil_r tr4) at 1.
    unfold run_complete_analysis, get_market_analysis, get_strategies,
      get_execution_plan, get_risk_assessment.
    eapply run_bind_returned; [exact H1 |].
    eapply run_bind_returned; [exact H2 |].
    eapply run_bind_returned; [exact H3 |].
    eapply run_bind_returned; [exact H4 |].
    reflexivity.
  - repeat split; try assumption; lia.
Qed.

(** C3.  In [run_complete_analysis] what goes into a downstream prompt is
    the text the upstream stage answered, cut to its first 2000 characters:
    it is never longer than 2000; when the text is longer than 2000 it is
    exactly its first 2000 characters; when the text has at most 2000
    characters it is the text itself.  [market], [strategies] and [execution]
    are what the Market, Strategy and Execution stages return when run one
    after the other; the Execution stage is run on the cut of [strategies],
    the Risk stage on the cuts of all three, and every call to those two
    specialists carries the prompt built from the cuts. *)
Theorem downstream_texts_are_cut_to_2000 :
  forall (S : Type) (w : World AgentCall string S)
         (ticker risk_attitude horizon : string) (lookback_days : Z) (st : S),
  exists (market strategies execution risk : string)
         (tr1 tr2 tr3 tr4 : Trace AgentCall string) (st1 st2 st3 st4 : S)
         (market' strategies' execution' : string),
    run w (market_intel_tool ticker lookback_days) st = (Returned market, tr1, st1)
    /\ run w (strategy_architect_tool ticker risk_attitude horizon) st1
       = (Returned strategies, tr2, st2)
    /\ prefix_cut 2000 market market'
    /\ prefix_cut 2000 strategies strategies'
    /\ run w (execution_planner_tool ticker strategies') st2
       = (Returned execution, tr3, st3)
    /\ prefix_cut 2000 execution execution'
    /\ run w (risk_assessor_tool ticker market' strategies' execution') st3
       = (Returned risk, tr4, st4)
    /\ run w (run_complete_analysis ticker risk_attitude horizon lookback_days) st
       = (Returned (VDict
            [ ("ticker", VStr ticker);
              ("risk_attitude", VStr risk_attitude);
              ("horizon", VStr horizon);
              ("market_analysis", VStr market);
              ("strategies", VStr strategies);
              ("execution_plan", VStr execution);
              ("risk_assessment", VStr risk) ]),
          (tr1 ++ tr2 ++ tr3 ++ tr4)%list, st4)
    /\ ((1 <= List.length tr1)%nat
        /\ all_to market_intelligence (market_intel_prompt ticker lookback_days) tr1)
    /\ ((1 <= List.length tr2)%nat
        /\ all_to strategy_architect
             (strategy_architect_prompt ticker risk_attitude horizon) tr2)
    /\ ((1 <= List.length tr3)%nat
        /\ all_to execution_planner (execution_planner_prompt ticker strategies') tr3)
    /\ ((1 <= List.length tr4)%nat
        /\ all_to risk_assessor
             (risk_assessor_prompt ticker market' strategies' execution') tr4)
    /\ (exists x, In x (tr1 ++ tr2 ++ tr3 ++ tr4)%list
                  /\ callee (fst x) = execution_planner)
    /\ (forall x, In x (tr1 ++ tr2 ++ tr3 ++ tr4)%list ->
          callee (fst x) = execution_planner ->
          prompt_of (fst x) = execution_planner_prompt ticker strategies')
    /\ (exists x, In x (tr1 ++ tr2 ++ tr3 ++ tr4)%list
                  /\ callee (fst x) = risk_assessor)
    /\ (forall x, In x (tr1 ++ tr2 ++ tr3 ++ tr4)%list ->
          callee (fst x) = risk_assessor ->
          prompt_of (fst x)
          = risk_assessor_prompt ticker market' strategies' execution').
Proof.
  intros S w ticker risk_attitude horizon lookback_days st.
  destruct (run_complete_analysis_stages w ticker risk_attitude horizon lookback_days st)
    as (market & strategies & execution & risk & tr1 & tr2 & tr3 & tr4
        & st1 & st2 & st3 & st4 & H1 & H2 & H3 & H4 & Hrun
        & [L1 A1] & [L2 A2] & [L3 A3] & [L4 A4]).
  exists market, strategies, execution, risk, tr1, tr2, tr3, tr4, st1, st2, st3, st4,
    (PyStr.slice_to 2000 market), (PyStr.slice_to 2000 strategies),
    (PyStr.slice_to 2000 execution).
  split; [exact H1 |]. split; [exact H2 |].
  split; [apply slice_to_prefix_cut |].
  split; [apply slice_to_prefix_cut |].
  split; [exact H3 |].
  split; [apply slice_to_prefix_cut |].
  split; [exact H4 |]. split; [exact Hrun |].
  split; [split; assumption |]. split; [split; assumption |].
  split; [split; assumption |]. split; [split; assumption |].
  unfold all_to in *. rewrite Forall_forall in A1, A2, A3, A4.
  assert (Hin : forall x, In x (tr1 ++ tr2 ++ tr3 ++ tr4)%list ->
                          In x tr1 \/ In x tr2 \/ In x tr3 \/ In x tr4).
  { intros x Hx. repeat (apply in_app_or in Hx; destruct Hx as [Hx | Hx]); auto. }
  split.
  - destruct tr3 as [| x tr3]; [simpl in L3; lia |].
    exists x. split.
    + apply in_or_app; right. apply in_or_app; right. apply in_or_app; left.
      left; reflexivity.
    + apply (A3 x). left; reflexivity.
  - split.
    + intros x Hx Hc.
      destruct (Hin x Hx) as [H | [H | [H | H]]].
      * destruct (A1 x H) as [Hc' _]. rewrite Hc' in Hc. discriminate Hc.
      * destruct (A2 x H) as [Hc' _]. rewrite Hc' in Hc. discriminate Hc.
      * destruct (A3 x H) as [_ Hp]. exact Hp.
      * destruct (A4 x H) as [Hc' _]. rewrite Hc' in Hc. discriminate Hc.
    + split.
      * destruct tr4 as [| x tr4]; [simpl in L4; lia |].
        exists x. split.
        -- apply in_or_app; right. apply in_or_app; right. apply in_or_app; right.
           left; reflexivity.
        -- apply (A4 x). left; reflexivity.
      * intros x Hx Hc.
        destruct (Hin x Hx) as [H | [H | [H | H]]].
        -- destruct (A1 x H) as [Hc' _]. rewrite Hc' in Hc. discriminate Hc.
        -- destruct (A2 x H) as [Hc' _]. rewrite Hc' in Hc. discriminate Hc.
        -- destruct (A3 x H) as [Hc' _]. rewrite Hc' in Hc. discriminate Hc.
        -- destruct (A4 x H) as [_ Hp]. exact Hp.
Qed.

(** C4.  [run_complete_analysis] always returns, and its calls are four
    non-empty blocks in the order Market, Strategy, Execution, Risk, each
    block being one [invoke_agent] on that specialist, started in the state
    the block before left.  The Execution prompt is built from the text
    Strategy returned; the Risk prompt from the texts Market, Strategy and
    Execution returned.  This holds whatever the specialists answer. *)
Theorem pipeline_runs_four_stages_in_order :
  forall (S : Type) (w : World AgentCall string S)
         (ticker risk_attitude horizon : string) (lookback_days : Z) (st : S),
  exists (market strategies execution risk : string)
         (tr1 tr2 tr3 tr4 : Trace AgentCall string) (st1 st2 st3 st4 : S),
    run w (market_intel_tool ticker lookback_days) st = (Returned market, tr1, st1)
    /\ run w (strategy_architect_tool ticker risk_attitude horizon) st1
       = (Returned strategies, tr2, st2)
    /\ run w (execution_planner_tool ticker (PyStr.slice_to 2000 strategies)) st2
       = (Returned execution, tr3, st3)
    /\ run w (risk_assessor_tool ticker (PyStr.slice_to 2000 market)
                (PyStr.slice_to 2000 strategies) (PyStr.slice_to 2000 execution)) st3
       = (Returned risk, tr4, st4)
    /\ run w (run_complete_analysis ticker risk_attitude horizon lookback_days) st
       = (Returned (VDict
            [ ("ticker", VStr ticker);
              ("risk_attitude", VStr risk_attitude);
              ("horizon", VStr horizon);
              ("market_analysis", VStr market);
              ("strategies", VStr strategies);
              ("execution_plan", VStr execution);
              ("risk_assessment", VStr risk) ]),
          (tr1 ++ tr2 ++ tr3 ++ tr4)%list, st4)
    /\ ((1 <= List.length tr1)%nat
        /\ all_to market_intelligence (market_intel_prompt ticker lookback_days) tr1)
    /\ ((1 <= List.length tr2)%nat
        /\ all_to strategy_architect
             (strategy_architect_prompt ticker risk_attitude horizon) tr2)
    /\ ((1 <= List.length tr3)%nat
        /\ all_to execution_planner
             (execution_planner_prompt ticker (PyStr.slice_to 2000 strategies)) tr3)
    /\ ((1 <= List.length tr4)%nat
        /\ all_to risk_assessor
             (risk_assessor_prompt ticker (PyStr.slice_to 2000 market)
                (PyStr.slice_to 2000 strategies) (PyStr.slice_to 2000 execution)) tr4).
Proof.
  intros S w ticker risk_attitude horizon lookback_days st.
  apply run_complete_analysis_stages.
Qed.

(** A run on a model that answers every first attempt, the strategy
    architect with 2500 characters: four calls, and the prompts of the last
    two carry the first 2000 of them. *)
Example pipeline_prompts_on_long_strategies :
  map (fun x => (callee (fst x), prompt_of (fst x)))
      (trace_of (run echo (run_complete_analysis "MSFT" "Conservative" "Short-term" 7) 0%nat))
  = [ (market_intelligence, market_intel_prompt "MSFT" 7);
      (strategy_architect, strategy_architect_prompt "MSFT" "Conservative" "Short-term");
      (execution_planner,
        execution_planner_prompt "MSFT" (PyStr.repeat "s"%char 2000));
      (risk_assessor,
        risk_assessor_prompt "MSFT" "market" (PyStr.repeat "s"%char 2000) "execution") ].
Proof. vm_compute. reflexivity. Qed.

(** A run where the market specialist fails for good and the others take
    only the third shape: the failure text is a stage output like any other,
    and the calls still go Market, Strategy, Execution, Risk. *)
Example pipeline_goes_on_after_a_failed_stage :
  result_of (run third_shape_only (run_complete_analysis "MSFT" "Conservative" "Short-term" 7)
               0%nat)
  = Returned (VDict
      [ ("ticker", VStr "MSFT");
        ("risk_attitude", VStr "Conservative");
        ("horizon", VStr "Short-term");
        ("market_analysis", VStr "Agent invocation error: rate exceeded");
        ("strategies", VStr "third shape accepted");
        ("execution_plan", VStr "third shape accepted");
        ("risk_assessment", VStr "third shape accepted") ])
  /\ map (fun x => callee (fst x))
       (trace_of (run third_shape_only
                    (run_complete_analysis "MSFT" "Conservative" "Short-term" 7) 0%nat))
     = [ market_intelligence;
         strategy_architect; strategy_architect; strategy_architect;
         execution_planner; execution_planner; execution_planner;
         risk_assessor; risk_assessor; risk_assessor ].
Proof. split; vm_compute; reflexivity. Qed.

(* ================================================================== *)
(** * websearch *)
(* ================================================================== *)

Lemma run_websearch {S : Type} (w : World SearchCall pyval S)
      (keywords region : string) (max_results : option Z) (st : S) :
  run w (websearch keywords region max_results) st =
  (Returned
     match fst (respond w (search_call keywords region max_results) st) with
     | Returned results =>
         if truthy results then results else VStr "No results found."
     | Raised e =>
         if isinstance e RatelimitException
         then VStr "RatelimitException: Please try again after a short delay."
         else if isinstance e DuckDuckGoSearchException
              then VStr ("DuckDuckGoSearchException: " ++ exn_str e)
              else VStr ("Exception: " ++ exn_str e)
     end,
   [(search_call keywords region max_results,
     fst (respond w (search_call keywords region max_results) st))],
   snd (respond w (search_call keywords region max_results) st)).
Proof.
  unfold websearch. simpl.
  destruct (respond w (search_call keywords region max_results) st) as [[v | e] st1]; simpl.
  - reflexivity.
  - destruct (isinstance e RatelimitException); [reflexivity |].
    destruct (isinstance e DuckDuckGoSearchException); [reflexivity |].
    rewrite isinstance_Exception. reflexivity.
Qed.

(** C5.  [websearch] never raises and calls the provider exactly once.  A
    rate-limit failure gives the fixed advice to try again after a short
    delay; another provider failure gives a text that ends with the
    provider's detail; any other exception gives a text that ends with its
    description; an empty result list gives the text [No results found.].
    The three failure texts are non-empty and pairwise different, whatever
    the details are. *)
Theorem websearch_turns_failures_into_text :
  forall (S : Type) (w : World SearchCall pyval S)
         (keywords region : string) (max_results : option Z) (st : S),
    let ev := search_call keywords region max_results in
    let advice := "RatelimitException: Please try again after a short delay." in
    (exists out,
        run w (websearch keywords region max_results) st
        = (Returned out, [(ev, fst (respond w ev st))], snd (respond w ev st))
        /\ (forall e, fst (respond w ev st) = Raised e ->
              isinstance e RatelimitException = true ->
              out = VStr advice)
        /\ (forall e, fst (respond w ev st) = Raised e ->
              isinstance e RatelimitException = false ->
              isinstance e DuckDuckGoSearchException = true ->
              out = VStr ("DuckDuckGoSearchException: " ++ exn_str e))
        /\ (forall e, fst (respond w ev st) = Raised e ->
              isinstance e DuckDuckGoSearchException = false ->
              out = VStr ("Exception: " ++ exn_str e))
        /\ (fst (respond w ev st) = Returned (VList []) ->
              out = VStr "No results found."))
    /\ PyStr.contains "try again after a short delay" advice = true
    /\ (forall detail description : string,
          advice <> EmptyString
          /\ "DuckDuckGoSearchException: " ++ detail <> EmptyString
          /\ "Exception: " ++ description <> EmptyString
          /\ advice <> "DuckDuckGoSearchException: " ++ detail
          /\ advice <> "Exception: " ++ description
          /\ "DuckDuckGoSearchException: " ++ detail <> "Exception: " ++ description).
Proof.
  intros S w keywords region max_results st ev advice.
  split; [| split].
  - eexists. split; [apply run_websearch |]. fold ev.
    repeat split.
    + intros e Hr Hrate. rewrite Hr, Hrate. reflexivity.
    + intros e Hr Hrate Hddg. rewrite Hr, Hrate, Hddg. reflexivity.
    + intros e Hr Hddg. rewrite Hr.
      destruct (isinstance e RatelimitException) eqn:Hrate.
      * apply Ratelimit_is_DuckDuckGo in Hrate. rewrite Hrate in Hddg. discriminate Hddg.
      * rewrite Hddg. reflexivity.
    + intros Hr. rewrite Hr. reflexivity.
  - reflexivity.
  - intros detail description. unfold advice.
    repeat split; simpl; intros H; discriminate H.
Qed.

(** The provider failing in each of the three ways, and finding nothing. *)
Lemma websearch_turns_failures_into_text_witness :
  result_of (run provider (websearch "AAPL earnings" "us-en" None)
               (Raised (mk_exn RatelimitException "202 Ratelimit")))
  = Returned (VStr "RatelimitException: Please try again after a short delay.")
  /\ result_of (run provider (websearch "AAPL earnings" "us-en" None)
                  (Raised (mk_exn DuckDuckGoSearchException "502 Bad Gateway")))
     = Returned (VStr "DuckDuckGoSearchException: 502 Bad Gateway")
  /\ result_of (run provider (websearch "AAPL earnings" "us-en" None)
                  (Raised (mk_exn ConnectionError "connection reset")))
     = Returned (VStr "Exception: connection reset")
  /\ result_of (run provider (websearch "AAPL earnings" "us-en" None)
                  (Returned (VList [])))
     = Returned (VStr "No results found.").
Proof.
  split; [| split; [| split]].
  - destruct (proj1 (websearch_turns_failures_into_text _ provider
                       "AAPL earnings" "us-en" None
                       (Raised (mk_exn RatelimitException "202 Ratelimit"))))
      as [out [Hrun [Hrate _]]].
    rewrite Hrun. unfold result_of. simpl.
    rewrite (Hrate (mk_exn RatelimitException "202 Ratelimit")); reflexivity.
  - destruct (proj1 (websearch_turns_failures_into_text _ provider
                       "AAPL earnings" "us-en" None
                       (Raised (mk_exn DuckDuckGoSearchException "502 Bad Gateway"))))
      as [out [Hrun [_ [Hddg _]]]].
    rewrite Hrun. unfold result_of. simpl.
    rewrite (Hddg (mk_exn DuckDuckGoSearchException "502 Bad Gateway")); reflexivity.
  - destruct (proj1 (websearch_turns_failures_into_text _ provider
                       "AAPL earnings" "us-en" None
                       (Raised (mk_exn ConnectionError "connection reset"))))
      as [out [Hrun [_ [_ [Hother _]]]]].
    rewrite Hrun. unfold result_of. simpl.
    rewrite (Hother (mk_exn ConnectionError "connection reset")); reflexivity.
  - destruct (proj1 (websearch_turns_failures_into_text _ provider
                       "AAPL earnings" "us-en" None (Returned (VList []))))
      as [out [Hrun [_ [_ [_ Hempty]]]]].
    rewrite Hrun. unfold result_of. simpl.
    rewrite Hempty; reflexivity.
Defined.

(** C8.  When the provider returns a non-empty list of results, [websearch]
    returns that very list, not a text; and when [websearch] returns a text
    although the provider returned a list, the list was empty and the text is
    the no-results one. *)
Theorem websearch_returns_raw_results :
  forall (S : Type) (w : World SearchCall pyval S)
         (keywords region : string) (max_results : option Z) (st : S),
    let ev := search_call keywords region max_results in
    (forall results st',
        results <> [] ->
        respond w ev st = (Returned (VList results), st') ->
        run w (websearch keywords region max_results) st
        = (Returned (VList results), [(ev, Returned (VList results))], st')
        /\ is_str (VList results) = false)
    /\ (forall results st' text,
        respond w ev st = (Returned (VList results), st') ->
        result_of (run w (websearch keywords region max_results) st)
        = Returned (VStr text) ->
        results = [] /\ text = "No results found.").
Proof.
  intros S w keywords region max_results st ev. split.
  - intros results st' Hne Hresp. split; [| reflexivity].
    rewrite run_websearch. fold ev. rewrite Hresp. simpl.
    destruct results as [| r results]; [contradiction Hne; reflexivity | reflexivity].
  - intros results st' text Hresp Hout.
    rewrite run_websearch in Hout. fold ev in Hout. rewrite Hresp in Hout.
    unfold result_of in Hout. simpl in Hout.
    destruct results as [| r results].
    + split; [reflexivity |]. inversion Hout. reflexivity.
    + discriminate Hout.
Qed.

(** Two results come back as the list of the two. *)
Lemma websearch_returns_raw_results_witness :
  run provider (websearch "AAPL earnings" "us-en" (Some 5%Z))
      (Returned (VList [ VDict [("title", VStr "Apple 10-K"); ("href", VStr "https://sec.gov/a");
                                ("body", VStr "Annual report")];
                         VDict [("title", VStr "Apple Q3"); ("href", VStr "https://sec.gov/b");
                                ("body", VStr "Quarterly report")] ]))
  = (Returned (VList [ VDict [("title", VStr "Apple 10-K"); ("href", VStr "https://sec.gov/a");
                              ("body", VStr "Annual report")];
                       VDict [("title", VStr "Apple Q3"); ("href", VStr "https://sec.gov/b");
                              ("body", VStr "Quarterly report")] ]),
     [ (search_call "AAPL earnings" "us-en" (Some 5%Z),
        Returned (VList [ VDict [("title", VStr "Apple 10-K"); ("href", VStr "https://sec.gov/a");
                                 ("body", VStr "Annual report")];
                          VDict [("title", VStr "Apple Q3"); ("href", VStr "https://sec.gov/b");
                                 ("body", VStr "Quarterly report")] ])) ],
     Returned (VList [ VDict [("title", VStr "Apple 10-K"); ("href", VStr "https://sec.gov/a");
                              ("body", VStr "Annual report")];
                       VDict [("title", VStr "Apple Q3"); ("href", VStr "https://sec.gov/b");
                              ("body", VStr "Quarterly report")] ])).
Proof.
  apply (proj1 (websearch_returns_raw_results _ provider "AAPL earnings" "us-en"
                  (Some 5%Z) _)).
  - intros H. discriminate H.
  - reflexivity.
Defined.

(* ================================================================== *)
(** * format_agentcore_response *)
(* ================================================================== *)

(** C9.  [format_agentcore_response] always returns, without calling the
    model, an envelope whose [result] is the text it was given, unchanged,
    and whose [metadata.educational_disclaimer] is [True]: for every text,
    the empty one and failure messages included, whether or not the text
    contains a disclaimer. *)
Theorem format_sets_disclaimer_flag_unconditionally :
  forall (S : Type) (w : World AgentCall string S) (advisor_response : string) (st : S),
  exists (envelope metadata : pyval) (st' : S),
    run w (format_agentcore_response advisor_response) st = (Returned envelope, [], st')
    /\ field "result" envelope = Some (VStr advisor_response)
    /\ field "metadata" envelope = Some metadata
    /\ field "educational_disclaimer" metadata = Some (VBool true).
Proof.
  intros S w advisor_response st.
  unfold format_agentcore_response, now. simpl.
  destruct (clock w st) as [t1 st1]. simpl.
  destruct (clock w st1) as [t2 st2]. simpl.
  eexists _, _, st2. repeat split.
Qed.

(** The flag is set on the empty text and on a failure message alike. *)
Example disclaimer_flag_on_empty_and_failure_text :
  forall text,
    In text [ ""; "Agent invocation error: rate exceeded" ] ->
    PyStr.contains "educational" (PyStr.lower text) = false
    /\ match result_of (run echo (format_agentcore_response text) 0%nat) with
       | Returned envelope =>
           field "result" envelope = Some (VStr text)
           /\ match field "metadata" envelope with
              | Some metadata => field "educational_disclaimer" metadata = Some (VBool true)
              | None => False
              end
       | Raised _ => False
       end.
Proof.
  intros text [H | [H | []]]; subst text; vm_compute; repeat split.
Qed.

(* ================================================================== *)
(** * process_agentcore_payload *)
(* ================================================================== *)

Lemma is_empty_true (s : string) : PyStr.is_empty s = true <-> s = EmptyString.
Proof.
  destruct s; simpl; split; intros H; try reflexivity; discriminate H.
Qed.

Lemma is_empty_false (s : string) : PyStr.is_empty s = false <-> s <> EmptyString.
Proof.
  destruct s; simpl; split; intros H; try discriminate; try reflexivity.
  contradiction H; reflexivity.
Qed.

(** The checks a string prompt goes through, in order. *)
Lemma process_string_prompt (items : list (string * pyval)) (text : string) :
  get items "prompt" (VStr "") = VStr text ->
  process_agentcore_payload (VDict items) =
  if PyStr.is_empty text then raise_ValueError missing_prompt_message
  else if (MAX_INPUT_LENGTH <? String.length (PyStr.strip text))%nat
  then raise_ValueError too_long_message
  else if existsb (fun pattern => PyStr.contains pattern (PyStr.lower (PyStr.strip text)))
            suspicious_patterns
  then raise_ValueError suspicious_message
  else if PyStr.is_empty (PyStr.strip text)
  then raise_ValueError whitespace_only_message
  else Returned (PyStr.strip text).
Proof.
  intros Hget. unfold process_agentcore_payload. rewrite Hget.
  destruct text; reflexivity.
Qed.

(** The two checks a prompt that is not a string can meet. *)
Lemma process_other_prompt (items : list (string * pyval)) :
  is_str (get items "prompt" (VStr "")) = false ->
  process_agentcore_payload (VDict items) =
  if truthy (get items "prompt" (VStr ""))
  then raise_ValueError not_a_string_message
  else raise_ValueError missing_prompt_message.
Proof.
  intros Hstr. unfold process_agentcore_payload.
  destruct (get items "prompt" (VStr "")) as [| b | z | s | l | d | t];
    try discriminate Hstr;
    match goal with |- context [truthy ?v] => destruct (truthy v) end; reflexivity.
Qed.

Lemma process_not_a_dictionary (payload : pyval) :
  is_dict payload = false ->
  process_agentcore_payload payload = raise_ValueError "Payload must be a dictionary".
Proof.
  destruct payload; intros H; try discriminate H; reflexivity.
Qed.

(** Whatever the validator raises is a [ValueError]. *)
Lemma process_raises_ValueError (payload : pyval) (e : exn) :
  process_agentcore_payload payload = Raised e -> exn_class e = ValueError.
Proof.
  destruct (is_dict payload) eqn:Hdict.
  - destruct payload as [| | | | | items |]; try discriminate Hdict.
    destruct (is_str (get items "prompt" (VStr ""))) eqn:Hstr.
    + destruct (get items "prompt" (VStr "")) as [| | | text | | |] eqn:Hget;
        try discriminate Hstr.
      rewrite (process_string_prompt items text Hget).
      repeat match goal with
             | |- context [if ?b then _ else _] => destruct b
             end;
        intros H; inversion H; reflexivity.
    + rewrite (process_other_prompt items Hstr).
      destruct (truthy _); intros H; inversion H; reflexivity.
  - rewrite (process_not_a_dictionary payload Hdict).
    intros H; inversion H; reflexivity.
Qed.

(** [invoke] turns what the validator raises into the validation envelope,
    without any call to the model. *)
Lemma invoke_on_rejected_payload
      {S : Type} (w : World AgentCall string S) (payload : pyval) (e : exn) (st : S) :
  process_agentcore_payload payload = Raised e ->
  run w (invoke payload) st =
  (Returned (VDict
     [ ("error", VStr ("Invalid request format: " ++ exn_str e));
       ("error_type", VStr "validation_error");
       ("timestamp", VStr (fst (clock w st)));
       ("system", VStr "financial-advisor-multiagent");
       ("metadata", VDict
          [ ("error_category", VStr "payload_validation");
            ("recoverable", VBool true);
            ("suggestion", VStr "Please check your request format and try again") ]) ]),
   [], snd (clock w st)).
Proof.
  intros Hraised.
  pose proof (process_raises_ValueError payload e Hraised) as Hclass.
  unfold invoke. rewrite Hraised.
  destruct e as [c msg]. simpl in Hclass. subst c.
  simpl. destruct (clock w st) as [t st1]. reflexivity.
Qed.

(** C10.  The truth test on the prompt comes before the type test: a prompt
    that is not a string and is falsy (0, False, an empty list, an empty
    dictionary, None) is rejected with the missing-prompt guidance; one that
    is not a string and is truthy is rejected with the must-be-a-string
    message, and nothing else is; both are the same class, [ValueError]. *)
Theorem emptiness_check_precedes_type_check :
  forall (items : list (string * pyval)),
    let user_query := get items "prompt" (VStr "") in
    (is_str user_query = false -> truthy user_query = false ->
       process_agentcore_payload (VDict items)
       = Raised (mk_exn ValueError missing_prompt_message))
    /\ (is_str user_query = false -> truthy user_query = true ->
       process_agentcore_payload (VDict items)
       = Raised (mk_exn ValueError not_a_string_message))
    /\ (process_agentcore_payload (VDict items)
        = Raised (mk_exn ValueError not_a_string_message) ->
        is_str user_query = false /\ truthy user_query = true).
Proof.
  intros items user_query. split; [| split].
  - intros Hstr Hfalsy. rewrite (process_other_prompt items Hstr).
    fold user_query. rewrite Hfalsy. reflexivity.
  - intros Hstr Htruthy. rewrite (process_other_prompt items Hstr).
    fold user_query. rewrite Htruthy. reflexivity.
  - intros H. destruct (is_str user_query) eqn:Hstr.
    + exfalso. unfold user_query in Hstr.
      destruct (get items "prompt" (VStr "")) as [| | | text | | |] eqn:Hget;
        try discriminate Hstr.
      rewrite (process_string_prompt items text Hget) in H.
      repeat match type of H with
             | context [if ?b then _ else _] => destruct b
             end;
        inversion H as [Hmsg]; vm_compute in Hmsg; discriminate Hmsg.
    + split; [reflexivity |].
      rewrite (process_other_prompt items Hstr) in H. fold user_query in H.
      destruct (truthy user_query); [reflexivity |].
      exfalso. apply (f_equal (fun r => match r with
                                        | Raised e => exn_str e
                                        | Returned _ => EmptyString
                                        end)) in H.
      vm_compute in H. discriminate H.
Qed.

(** The five falsy values, and two truthy ones. *)
Lemma emptiness_check_precedes_type_check_witness :
  (forall v, In v [ VInt 0; VBool false; VList []; VDict []; VNone ] ->
     process_agentcore_payload (VDict [("prompt", v)])
     = Raised (mk_exn ValueError missing_prompt_message))
  /\ (forall v, In v [ VInt 42; VList [VStr "AAPL"] ] ->
     process_agentcore_payload (VDict [("prompt", v)])
     = Raised (mk_exn ValueError not_a_string_message)).
Proof.
  split.
  - intros v Hv.
    apply (proj1 (emptiness_check_precedes_type_check [("prompt", v)]));
      simpl in Hv; decompose [or] Hv; subst; try contradiction; reflexivity.
  - intros v Hv.
    apply (proj1 (proj2 (emptiness_check_precedes_type_check [("prompt", v)])));
      simpl in Hv; decompose [or] Hv; subst; try contradiction; reflexivity.
Defined.

(* ================================================================== *)
(** * Trimming, lowercasing and searching *)
(* ================================================================== *)

Lemma rstrip_length (s : string) :
  (String.length (PyStr.rstrip s) <= String.length s)%nat.
Proof.
  induction s as [| c s IH]; simpl.
  - lia.
  - destruct (PyStr.isspace c && PyStr.is_empty (PyStr.rstrip s)); simpl; lia.
Qed.

Lemma lstrip_length (s : string) :
  (String.length (PyStr.lstrip s) <= String.length s)%nat.
Proof.
  induction s as [| c s IH]; simpl.
  - lia.
  - destruct (PyStr.isspace c); simpl; lia.
Qed.

Lemma strip_length (s : string) :
  (String.length (PyStr.strip s) <= String.length s)%nat.
Proof.
  unfold PyStr.strip.
  pose proof (rstrip_length (PyStr.lstrip s)). pose proof (lstrip_length s). lia.
Qed.

Lemma rstrip_empty (s : string) :
  PyStr.rstrip s = EmptyString <-> all_space s = true.
Proof.
  induction s as [| c s IH]; simpl.
  - split; reflexivity.
  - destruct (PyStr.isspace c); simpl.
    + destruct (PyStr.rstrip s) as [| d r] eqn:Hr; simpl.
      * split; [intros _; apply IH; reflexivity | reflexivity].
      * split; [intros H; discriminate H |].
        intros H. apply IH in H. discriminate H.
    + split; intros H; discriminate H.
Qed.

Lemma lstrip_all_space (s : string) :
  all_space (PyStr.lstrip s) = all_space s.
Proof.
  induction s as [| c s IH]; simpl.
  - reflexivity.
  - destruct (PyStr.isspace c) eqn:Hc; simpl.
    + exact IH.
    + rewrite Hc. reflexivity.
Qed.

Lemma strip_empty (s : string) :
  PyStr.strip s = EmptyString <-> all_space s = true.
Proof.
  unfold PyStr.strip. rewrite rstrip_empty, lstrip_all_space. reflexivity.
Qed.

Lemma contains_empty (p : string) :
  p <> EmptyString -> PyStr.contains p EmptyString = false.
Proof.
  destruct p; [intros H; contradiction H; reflexivity | reflexivity].
Qed.

Lemma startswith_lower (p s : string) :
  PyStr.startswith p s = true ->
  PyStr.startswith (PyStr.lower p) (PyStr.lower s) = true.
Proof.
  revert s. induction p as [| a p IH]; intros s H.
  - reflexivity.
  - destruct s as [| b s]; simpl in *; [discriminate H |].
    apply andb_true_iff in H. destruct H as [Hab Hrest].
    apply Ascii.eqb_eq in Hab. subst b.
    rewrite Ascii.eqb_refl. simpl. apply IH. exact Hrest.
Qed.

Lemma contains_cons (p : string) (c : ascii) (s : string) :
  PyStr.contains p (String c s)
  = PyStr.startswith p (String c s) || PyStr.contains p s.
Proof. reflexivity. Qed.

Lemma contains_lower (p s : string) :
  PyStr.contains p s = true ->
  PyStr.contains (PyStr.lower p) (PyStr.lower s) = true.
Proof.
  induction s as [| b s IH]; intros H.
  - simpl in H. rewrite orb_false_r in H.
    apply startswith_lower in H.
    simpl. rewrite orb_false_r. exact H.
  - rewrite contains_cons in H. apply orb_true_iff in H.
    change (PyStr.lower (String b s)) with (String (PyStr.lower_char b) (PyStr.lower s)).
    rewrite contains_cons. apply orb_true_iff.
    destruct H as [H | H].
    + left. exact (startswith_lower p (String b s) H).
    + right. exact (IH H).
Qed.

Lemma contains_lstrip (p s : string) :
  first_not_space p = true ->
  PyStr.contains p s = true -> PyStr.contains p (PyStr.lstrip s) = true.
Proof.
  intros Hp. induction s as [| c s IH]; intros H.
  - exact H.
  - simpl PyStr.lstrip. destruct (PyStr.isspace c) eqn:Hc; [| exact H].
    apply IH. simpl in H. apply orb_true_iff in H. destruct H as [H | H]; [| exact H].
    destruct p as [| a p]; [discriminate Hp |].
    simpl in H. apply andb_true_iff in H. destruct H as [Hac _].
    apply Ascii.eqb_eq in Hac. subst c. simpl in Hp. rewrite Hc in Hp. discriminate Hp.
Qed.

Lemma startswith_rstrip (p s : string) :
  last_not_space p = true ->
  PyStr.startswith p s = true -> PyStr.startswith p (PyStr.rstrip s) = true.
Proof.
  revert s. induction p as [| a p IH]; intros s Hp H.
  - discriminate Hp.
  - destruct s as [| c s]; [discriminate H |].
    simpl in H. apply andb_true_iff in H. destruct H as [Hac Hrest].
    apply Ascii.eqb_eq in Hac. subst c.
    destruct p as [| a' p'].
    + simpl in Hp. apply negb_true_iff in Hp.
      simpl. rewrite Hp. simpl. rewrite Ascii.eqb_refl. reflexivity.
    + assert (Hp' : last_not_space (String a' p') = true) by exact Hp.
      specialize (IH s Hp' Hrest).
      simpl PyStr.rstrip.
      destruct (PyStr.rstrip s) as [| d r] eqn:Hr; [discriminate IH |].
      rewrite andb_false_r.
      change (PyStr.startswith (String a (String a' p')) (String a (String d r)))
        with (Ascii.eqb a a && PyStr.startswith (String a' p') (String d r)).
      rewrite Ascii.eqb_refl, IH. reflexivity.
Qed.

Lemma contains_rstrip (p s : string) :
  last_not_space p = true ->
  PyStr.contains p s = true -> PyStr.contains p (PyStr.rstrip s) = true.
Proof.
  intros Hp. assert (Hne : p <> EmptyString) by (intros ->; discriminate Hp).
  induction s as [| c s IH]; intros H.
  - exact H.
  - simpl in H. apply orb_true_iff in H. destruct H as [H | H].
    + apply (startswith_rstrip p (String c s) Hp) in H.
      destruct (PyStr.rstrip (String c s)); simpl; rewrite H; reflexivity.
    + specialize (IH H).
      simpl PyStr.rstrip.
      destruct (PyStr.rstrip s) as [| d r] eqn:Hr.
      * rewrite (contains_empty p Hne) in IH. discriminate IH.
      * rewrite andb_false_r.
        change (PyStr.contains p (String c (String d r)))
          with (PyStr.startswith p (String c (String d r))
                || PyStr.contains p (String d r)).
        rewrite IH. apply orb_true_r.
Qed.

(** A pattern found in the text as it came is found in the trimmed,
    lowercased text. *)
Lemma contains_survives_cleaning (pattern text : string) :
  In pattern suspicious_patterns ->
  PyStr.contains pattern text = true ->
  PyStr.contains pattern (PyStr.lower (PyStr.strip text)) = true.
Proof.
  intros Hin H.
  assert (Hp : first_not_space pattern = true /\ last_not_space pattern = true
               /\ PyStr.lower pattern = pattern).
  { simpl in Hin. decompose [or] Hin; subst; try contradiction; repeat split. }
  destruct Hp as [Hfirst [Hlast Hlower]].
  rewrite <- Hlower. apply contains_lower.
  unfold PyStr.strip. apply contains_rstrip; [exact Hlast |].
  apply contains_lstrip; assumption.
Qed.

(* ================================================================== *)
(** * The request boundary *)
(* ================================================================== *)

Lemma raised_is_rejected (payload : pyval) (e : exn) :
  process_agentcore_payload payload = Raised e ->
  rejected_as_validation_error payload.
Proof.
  intros Hraised. exists e.
  split; [exact Hraised |].
  split; [exact (process_raises_ValueError payload e Hraised) |].
  intros S w st. eexists _, _.
  split; [apply (invoke_on_rejected_payload w payload e st Hraised) |].
  split; reflexivity.
Qed.

Lemma no_pattern_found (text : string) :
  (forall pattern, In pattern suspicious_patterns ->
     PyStr.contains pattern text = false) ->
  existsb (fun pattern => PyStr.contains pattern text) suspicious_patterns = false.
Proof.
  intros Hnone.
  destruct (existsb (fun pattern => PyStr.contains pattern text) suspicious_patterns)
    eqn:Hex; [| reflexivity].
  apply existsb_exists in Hex. destruct Hex as [pattern [Hin Hfound]].
  rewrite (Hnone pattern Hin) in Hfound. discriminate Hfound.
Qed.

Lemma process_accepts (items : list (string * pyval)) (text : string) :
  get items "prompt" (VStr "") = VStr text ->
  acceptable text ->
  process_agentcore_payload (VDict items) = Returned (PyStr.strip text).
Proof.
  intros Hget [Hne [Hlen Hclean]].
  rewrite (process_string_prompt items text Hget).
  destruct (PyStr.is_empty text) eqn:Hempty.
  - apply is_empty_true in Hempty. subst text. contradiction Hne. reflexivity.
  - replace (MAX_INPUT_LENGTH <? String.length (PyStr.strip text))%nat with false
      by (symmetry; apply Nat.ltb_ge; exact Hlen).
    rewrite (no_pattern_found _ Hclean).
    replace (PyStr.is_empty (PyStr.strip text)) with false
      by (symmetry; apply is_empty_false; exact Hne).
    reflexivity.
Qed.

Lemma process_rejects (items : list (string * pyval)) (text : string) :
  get items "prompt" (VStr "") = VStr text ->
  all_space text = true
  \/ (MAX_INPUT_LENGTH < String.length (PyStr.strip text))%nat
  \/ (exists pattern, In pattern suspicious_patterns
        /\ PyStr.contains pattern (PyStr.lower (PyStr.strip text)) = true) ->
  exists e, process_agentcore_payload (VDict items) = Raised e.
Proof.
  intros Hget Hcause.
  rewrite (process_string_prompt items text Hget).
  destruct (PyStr.is_empty text); [eexists; reflexivity |].
  destruct (MAX_INPUT_LENGTH <? String.length (PyStr.strip text))%nat eqn:Hlong;
    [eexists; reflexivity |].
  destruct (existsb _ suspicious_patterns) eqn:Hex; [eexists; reflexivity |].
  destruct (PyStr.is_empty (PyStr.strip text)) eqn:Hempty; [eexists; reflexivity |].
  exfalso. destruct Hcause as [Hspace | [Hlen | [pattern [Hin Hfound]]]].
  - apply strip_empty in Hspace. apply is_empty_false in Hempty. contradiction.
  - apply Nat.ltb_ge in Hlong. lia.
  - assert (Htrue : existsb
                      (fun pattern => PyStr.contains pattern (PyStr.lower (PyStr.strip text)))
                      suspicious_patterns = true).
    { apply existsb_exists. exists pattern. split; assumption. }
    rewrite Htrue in Hex. discriminate Hex.
Qed.

Lemma acceptable_or_not (text : string) :
  acceptable text
  \/ (all_space text = true
      \/ (MAX_INPUT_LENGTH < String.length (PyStr.strip text))%nat
      \/ (exists pattern, In pattern suspicious_patterns
            /\ PyStr.contains pattern (PyStr.lower (PyStr.strip text)) = true)).
Proof.
  destruct (all_space text) eqn:Hspace; [right; left; reflexivity |].
  destruct (MAX_INPUT_LENGTH <? String.length (PyStr.strip text))%nat eqn:Hlong.
  { right; right; left. apply Nat.ltb_lt. exact Hlong. }
  destruct (existsb (fun pattern => PyStr.contains pattern (PyStr.lower (PyStr.strip text)))
              suspicious_patterns) eqn:Hex.
  { right; right; right. apply existsb_exists in Hex. exact Hex. }
  left. unfold acceptable. repeat split.
  - intros Hempty. apply strip_empty in Hempty. rewrite Hempty in Hspace. discriminate Hspace.
  - apply Nat.ltb_ge. exact Hlong.
  - intros pattern Hin.
    destruct (PyStr.contains pattern (PyStr.lower (PyStr.strip text))) eqn:Hfound;
      [| reflexivity].
    assert (Htrue : existsb
                      (fun pattern => PyStr.contains pattern (PyStr.lower (PyStr.strip text)))
                      suspicious_patterns = true).
    { apply existsb_exists. exists pattern. split; assumption. }
    rewrite Htrue in Hex. discriminate Hex.
Qed.

(** C6, as amended.  The validator accepts every payload whose prompt is a
    string that, once trimmed, is non-empty, has at most 5000 characters
    and, lowercased, contains no deny-listed pattern; it returns the trimmed
    prompt.  Every other payload is rejected with a [ValueError] that
    [invoke] maps to an envelope of type [validation_error]: a payload that
    is not a dictionary; a prompt that is not a string; a prompt that is
    missing, empty or all white space; a prompt longer than 5000 characters
    after trimming; a prompt that contains a deny-listed pattern, as written
    or in any other letter case.  There is no third outcome. *)
Theorem boundary_validator_decision :
  forall (payload : pyval),
    (forall items text,
        payload = VDict items ->
        get items "prompt" (VStr "") = VStr text ->
        acceptable text ->
        process_agentcore_payload payload = Returned (PyStr.strip text))
    /\ (is_dict payload = false -> rejected_as_validation_error payload)
    /\ (forall items,
        payload = VDict items ->
        is_str (get items "prompt" (VStr "")) = false ->
        rejected_as_validation_error payload)
    /\ (forall items text,
        payload = VDict items ->
        get items "prompt" (VStr "") = VStr text ->
        all_space text = true
        \/ (MAX_INPUT_LENGTH < String.length (PyStr.strip text))%nat
        \/ (exists pattern, In pattern suspicious_patterns
              /\ PyStr.contains pattern text = true)
        \/ (exists pattern, In pattern suspicious_patterns
              /\ PyStr.contains pattern (PyStr.lower (PyStr.strip text)) = true) ->
        rejected_as_validation_error payload)
    /\ (forall items text,
        payload = VDict items ->
        get items "prompt" (VStr "") = VStr text ->
        acceptable text
        \/ (all_space text = true
            \/ (MAX_INPUT_LENGTH < String.length (PyStr.strip text))%nat
            \/ (exists pattern, In pattern suspicious_patterns
                  /\ PyStr.contains pattern (PyStr.lower (PyStr.strip text)) = true))).
Proof.
  intros payload. split; [| split; [| split; [| split]]].
  - intros items text -> Hget Hok. apply process_accepts; assumption.
  - intros Hdict. apply (raised_is_rejected payload (mk_exn ValueError "Payload must be a dictionary")).
    apply process_not_a_dictionary. exact Hdict.
  - intros items -> Hstr.
    rewrite <- (negb_involutive (is_str _)) in Hstr.
    destruct (truthy (get items "prompt" (VStr ""))) eqn:Htruthy.
    + apply (raised_is_rejected _ (mk_exn ValueError not_a_string_message)).
      rewrite negb_involutive in Hstr.
      rewrite (process_other_prompt items Hstr), Htruthy. reflexivity.
    + apply (raised_is_rejected _ (mk_exn ValueError missing_prompt_message)).
      rewrite negb_involutive in Hstr.
      rewrite (process_other_prompt items Hstr), Htruthy. reflexivity.
  - intros items text -> Hget Hcause.
    assert (Hcause' :
              all_space text = true
              \/ (MAX_INPUT_LENGTH < String.length (PyStr.strip text))%nat
              \/ (exists pattern, In pattern suspicious_patterns
                    /\ PyStr.contains pattern (PyStr.lower (PyStr.strip text)) = true)).
    { destruct Hcause as [H | [H | [[pattern [Hin Hfound]] | H]]].
      - left; exact H.
      - right; left; exact H.
      - right; right. exists pattern. split; [exact Hin |].
        apply contains_survives_cleaning; assumption.
      - right; right; exact H. }
    destruct (process_rejects items text Hget Hcause') as [e He].
    apply (raised_is_rejected _ e He).
  - intros items text _ _. apply acceptable_or_not.
Qed.

(** A padded request is accepted, trimmed; the empty prompt and a prompt of
    6000 letters are rejected. *)
Lemma boundary_validator_decision_witness :
  process_agentcore_payload
    (VDict [("prompt",
             VStr "  Analyze AAPL stock for moderate risk investor with long-term horizon  ")])
  = Returned "Analyze AAPL stock for moderate risk investor with long-term horizon"
  /\ rejected_as_validation_error (VDict [("prompt", VStr "")])
  /\ rejected_as_validation_error (VDict [("prompt", VStr (PyStr.repeat "A"%char 6000))]).
Proof.
  split; [| split].
  - apply (proj1 (boundary_validator_decision _)
             [("prompt",
               VStr "  Analyze AAPL stock for moderate risk investor with long-term horizon  ")]
             "  Analyze AAPL stock for moderate risk investor with long-term horizon  ").
    + reflexivity.
    + reflexivity.
    + unfold acceptable. split; [| split].
      * vm_compute. intros H. discriminate H.
      * apply Nat.leb_le. vm_compute. reflexivity.
      * intros pattern Hin. simpl in Hin.
        decompose [or] Hin; subst; try contradiction; vm_compute; reflexivity.
  - apply (proj1 (proj2 (proj2 (proj2 (boundary_validator_decision _))))
             [("prompt", VStr "")] "").
    + reflexivity.
    + reflexivity.
    + left. reflexivity.
  - apply (proj1 (proj2 (proj2 (proj2 (boundary_validator_decision _))))
             [("prompt", VStr (PyStr.repeat "A"%char 6000))] (PyStr.repeat "A"%char 6000)).
    + reflexivity.
    + reflexivity.
    + right; left. apply Nat.ltb_lt. vm_compute. reflexivity.
Defined.

(** C6, as stated, fails twice.  The prompt [EVAL(1)] is a non-empty string
    of at most 5000 characters that contains none of the deny-listed
    patterns, and it is rejected; the prompt made of [A] and 5000 spaces is
    longer than 5000 characters, and it is accepted. *)
Lemma validator_rejects_capitals_and_accepts_padding :
  (PyStr.strip "EVAL(1)" <> EmptyString
   /\ (String.length "EVAL(1)" <= 5000)%nat
   /\ forallb (fun pattern => negb (PyStr.contains pattern "EVAL(1)"))
        suspicious_patterns = true
   /\ process_agentcore_payload (VDict [("prompt", VStr "EVAL(1)")])
      = Raised (mk_exn ValueError suspicious_message))
  /\ ((5000 < String.length ("A" ++ PyStr.repeat " "%char 5000))%nat
      /\ process_agentcore_payload
           (VDict [("prompt", VStr ("A" ++ PyStr.repeat " "%char 5000))])
         = Returned "A").
Proof.
  split; [split; [| split; [| split]] | split].
  - vm_compute. intros H. discriminate H.
  - apply Nat.leb_le. vm_compute. reflexivity.
  - vm_compute. reflexivity.
  - vm_compute. reflexivity.
  - apply Nat.ltb_lt. vm_compute. reflexivity.
  - vm_compute. reflexivity.
Qed.

(* ================================================================== *)
(** * What the orchestrator's entry points return *)
(* ================================================================== *)

(** A single-stage entry point is one [invoke_agent], which returns. *)
Ltac returns_by_invoke_agent w agent st :=
  match goal with
  | |- exists text tr st', run w ?m st = _ =>
      let p := eval cbv delta
                 [get_market_analysis get_strategies get_execution_plan
                  get_risk_assessment market_intel_tool strategy_architect_tool
                  execution_planner_tool risk_assessor_tool] beta in m in
      match p with
      | invoke_agent agent ?prompt ?cap =>
          let text := fresh "text" in
          let tr := fresh "tr" in
          let st' := fresh "st'" in
          let Hrun := fresh "Hrun" in
          destruct (invoke_agent_returns w agent prompt cap st)
            as (text & tr & st' & Hrun & _);
          exists text, tr, st'; exact Hrun
      end
  end.

(** C7, as amended.  [analyze] makes one bare call to the coordinator and
    its outcome is that call's: the text, one string, when the call returns.
    The four single-stage entry points always return one string.
    [run_complete_analysis] always returns a dictionary of seven texts
    ([ticker], [risk_attitude], [horizon] and the four stage outputs), with
    no field that tells success from failure. *)
Theorem entry_points_terminal_outputs :
  forall (S : Type) (w : World AgentCall string S) (st : S),
    (forall user_query,
        let ev := agent_call coordinator user_query [] in
        run w (analyze user_query) st
        = (fst (respond w ev st), [(ev, fst (respond w ev st))], snd (respond w ev st)))
    /\ (forall ticker lookback_days,
        exists text tr st',
          run w (get_market_analysis ticker lookback_days) st = (Returned text, tr, st'))
    /\ (forall ticker risk_attitude horizon,
        exists text tr st',
          run w (get_strategies ticker risk_attitude horizon) st = (Returned text, tr, st'))
    /\ (forall ticker strategy_summary,
        exists text tr st',
          run w (get_execution_plan ticker strategy_summary) st = (Returned text, tr, st'))
    /\ (forall ticker market_summary strategies_summary execution_plan,
        exists text tr st',
          run w (get_risk_assessment ticker market_summary strategies_summary
                   execution_plan) st
          = (Returned text, tr, st'))
    /\ (forall ticker risk_attitude horizon lookback_days,
        exists market strategies execution risk tr st',
          run w (run_complete_analysis ticker risk_attitude horizon lookback_days) st
          = (Returned (VDict
               [ ("ticker", VStr ticker);
                 ("risk_attitude", VStr risk_attitude);
                 ("horizon", VStr horizon);
                 ("market_analysis", VStr market);
                 ("strategies", VStr strategies);
                 ("execution_plan", VStr execution);
                 ("risk_assessment", VStr risk) ]), tr, st')).
Proof.
  intros S w st. split; [| split; [| split; [| split; [| split]]]].
  - intros user_query ev. unfold analyze. apply run_call.
  - intros ticker lookback_days.
    returns_by_invoke_agent w market_intelligence st.
  - intros ticker risk_attitude horizon.
    returns_by_invoke_agent w strategy_architect st.
  - intros ticker strategy_summary.
    returns_by_invoke_agent w execution_planner st.
  - intros ticker market_summary strategies_summary execution_plan.
    returns_by_invoke_agent w risk_assessor st.
  - intros ticker risk_attitude horizon lookback_days.
    destruct (run_complete_analysis_stages w ticker risk_attitude horizon lookback_days st)
      as (market & strategies & execution & risk & tr1 & tr2 & tr3 & tr4
          & st1 & st2 & st3 & st4 & _ & _ & _ & _ & Hrun & _).
    exists market, strategies, execution, risk, (tr1 ++ tr2 ++ tr3 ++ tr4)%list, st4.
    exact Hrun.
Qed.

(** C7, as stated, fails on [run_complete_analysis]: on a model that answers
    every call, what comes back is a dictionary, not a string. *)
Lemma run_complete_analysis_returns_a_dictionary :
  result_of (run echo (run_complete_analysis "MSFT" "Conservative" "Short-term" 7) 0%nat)
  = Returned (VDict
      [ ("ticker", VStr "MSFT");
        ("risk_attitude", VStr "Conservative");
        ("horizon", VStr "Short-term");
        ("market_analysis", VStr "market");
        ("strategies", VStr (PyStr.repeat "s"%char 2500));
        ("execution_plan", VStr "execution");
        ("risk_assessment", VStr "risk") ])
  /\ ~ (exists text,
          result_of (run echo (run_complete_analysis "MSFT" "Conservative" "Short-term" 7)
                       0%nat)
          = Returned (VStr text)).
Proof.
  split.
  - vm_compute. reflexivity.
  - intros [text Htext]. vm_compute in Htext. discriminate Htext.
Qed.

(* ================================================================== *)
(** * invoke: the whole entry point *)
(* ================================================================== *)

(** An accepted payload whose model call returns: the success envelope. *)
Lemma run_invoke_success
      {S : Type} (w : World AgentCall string S) (payload : pyval)
      (q text : string) (st st1 : S) :
  process_agentcore_payload payload = Returned q ->
  respond w (agent_call coordinator q []) st = (Returned text, st1) ->
  run w (invoke payload) st =
  (Returned (VDict
     [ ("result", VStr text);
       ("timestamp", VStr (fst (clock w st1)));
       ("system", VStr "financial-advisor-multiagent");
       ("metadata", VDict
          [ ("version", VStr "1.0.0");
            ("agent_type", VStr "financial_advisor");
            ("educational_disclaimer", VBool true);
            ("response_format", VStr "structured_analysis");
            ("capabilities", VList
               [ VStr "market_intelligence"; VStr "strategy_development";
                 VStr "execution_planning"; VStr "risk_assessment" ]);
            ("disclaimer", VStr "Educational purposes only - not licensed financial advice");
            ("response_stats", VDict
               [ ("character_count", VInt (Z.of_nat (String.length text)));
                 ("processing_timestamp",
                   VStr (fst (clock w (snd (clock w st1))))) ]) ]) ]),
   [(agent_call coordinator q [], Returned text)],
   snd (clock w (snd (clock w st1)))).
Proof.
  intros Hproc Hresp. unfold invoke. rewrite Hproc. simpl. rewrite Hresp. simpl.
  destruct (clock w st1) as [t1 st2]. simpl.
  destruct (clock w st2) as [t2 st3]. simpl.
  destruct text; reflexivity.
Qed.

(** An accepted payload whose model call raises: what the first clause of
    [invoke] that the exception is an instance of answers, after the one
    call. *)
Lemma run_invoke_failure
      {S : Type} (w : World AgentCall string S) (payload : pyval)
      (q : string) (e : exn) (st st1 : S) :
  process_agentcore_payload payload = Returned q ->
  respond w (agent_call coordinator q []) st = (Raised e, st1) ->
  exists (msg : string) (metadata : list (string * pyval)),
    run w (invoke payload) st =
    (Returned (VDict
       [ ("error", VStr msg);
         ("error_type",
           VStr (if isinstance e ValueError then "validation_error"
                 else if isinstance e RatelimitException then "rate_limit_error"
                 else if isinstance e DuckDuckGoSearchException then "web_search_error"
                 else if isinstance e TypeError then "agent_parameter_error"
                 else if isinstance e MemoryError then "memory_error"
                 else if isinstance e ConnectionError then "connection_error"
                 else if isinstance e TimeoutError then "timeout_error"
                 else if isinstance e PermissionError then "permission_error"
                 else "system_error"));
         ("timestamp", VStr (fst (clock w st1)));
         ("system", VStr "financial-advisor-multiagent");
         ("metadata", VDict metadata) ]),
     [(agent_call coordinator q [], Raised e)],
     snd (clock w st1))
    /\ (isinstance e ValueError = true -> msg = "Invalid request format: " ++ exn_str e)
    /\ lookup "error_class" metadata
       = (if existsb (isinstance e) own_clause_classes then None
          else Some (VStr (class_name (exn_class e))))
    /\ lookup "recoverable" metadata
       = Some (VBool (existsb (isinstance e)
                        [ ValueError; RatelimitException; DuckDuckGoSearchException;
                          TypeError; MemoryError; ConnectionError; TimeoutError ])).
Proof.
  intros Hproc Hresp. unfold invoke. rewrite Hproc. simpl. rewrite Hresp. simpl.
  rewrite isinstance_Exception.
  destruct e as [c text]. destruct c; simpl;
    destruct (clock w st1) as [t st2]; simpl;
    (eexists _, _; split; [reflexivity |]);
    (split; [intros Hc; try discriminate Hc; reflexivity |]);
    split; reflexivity.
Qed.

(** X1.  [invoke] never raises.  For every payload and every behaviour of
    the model it answers with a well-formed envelope; it calls the model at
    most once, and not at all exactly when the validator rejects the
    payload. *)
Theorem invoke_always_answers :
  forall (S : Type) (w : World AgentCall string S) (payload : pyval) (st : S),
  exists (envelope : pyval) (tr : Trace AgentCall string) (st' : S),
    run w (invoke payload) st = (Returned envelope, tr, st')
    /\ well_formed_envelope envelope
    /\ (List.length tr <= 1)%nat
    /\ (tr = [] <-> exists e, process_agentcore_payload payload = Raised e).
Proof.
  intros S w payload st.
  destruct (process_agentcore_payload payload) as [q | e] eqn:Hproc.
  - destruct (respond w (agent_call coordinator q []) st) as [[text | e] st1] eqn:Hresp.
    + eexists _, _, _. split; [apply (run_invoke_success w payload q text st st1 Hproc Hresp) |].
      split.
      * unfold well_formed_envelope. simpl.
        split; [reflexivity |]. split; [eexists; reflexivity |].
        split; [eexists; reflexivity |]. left.
        split; [eexists; reflexivity |]. split; reflexivity.
      * split; [simpl; lia |].
        split; [intros H; discriminate H | intros [e He]; discriminate He].
    + destruct (run_invoke_failure w payload q e st st1 Hproc Hresp)
        as (msg & metadata & Hrun & _).
      eexists _, _, _. split; [exact Hrun |].
      split.
      * unfold well_formed_envelope. simpl.
        split; [reflexivity |]. split; [eexists; reflexivity |].
        split; [eexists; reflexivity |]. right.
        split; [eexists _, _; split; reflexivity | reflexivity].
      * split; [simpl; lia |].
        split; [intros H; discriminate H | intros [e' He]; discriminate He].
  - eexists _, _, _. split; [apply (invoke_on_rejected_payload w payload e st Hproc) |].
    split.
    + unfold well_formed_envelope. simpl.
      split; [reflexivity |]. split; [eexists; reflexivity |].
      split; [eexists; reflexivity |]. right.
      split; [eexists _, _; split; reflexivity | reflexivity].
    + split; [simpl; lia |].
      split; [intros _; exists e; reflexivity | reflexivity].
Qed.

(** X2.  When the validator accepts the payload with the query [q] and the
    model returns, [invoke] has asked the coordinator exactly once, for [q]
    and with no optional parameter, and answers the success envelope: the
    model's text unchanged in [result], no [error], the disclaimer flag, the
    number of characters of the text, and two clock readings taken in order
    after the call. *)
Theorem invoke_returns_the_model_text :
  forall (S : Type) (w : World AgentCall string S) (payload : pyval)
         (q text : string) (st st1 : S),
    process_agentcore_payload payload = Returned q ->
    respond w (agent_call coordinator q []) st = (Returned text, st1) ->
    exists (envelope metadata stats : pyval),
      run w (invoke payload) st
      = (Returned envelope, [(agent_call coordinator q [], Returned text)],
         snd (clock w (snd (clock w st1))))
      /\ field "result" envelope = Some (VStr text)
      /\ field "error" envelope = None
      /\ field "timestamp" envelope = Some (VStr (fst (clock w st1)))
      /\ field "metadata" envelope = Some metadata
      /\ field "educational_disclaimer" metadata = Some (VBool true)
      /\ field "response_stats" metadata = Some stats
      /\ field "character_count" stats = Some (VInt (Z.of_nat (String.length text)))
      /\ field "processing_timestamp" stats
         = Some (VStr (fst (clock w (snd (clock w st1))))).
Proof.
  intros S w payload q text st st1 Hproc Hresp.
  eexists _, _, _.
  split; [apply (run_invoke_success w payload q text st st1 Hproc Hresp) |].
  simpl. repeat (split; [reflexivity |]). reflexivity.
Qed.

Lemma invoke_returns_the_model_text_witness :
  exists envelope,
    run echo (invoke (VDict [("prompt", VStr "  Analyze AAPL  ")])) 0%nat
    = (Returned envelope,
       [(agent_call coordinator "Analyze AAPL" [], Returned "advice")], 1%nat)
    /\ field "result" envelope = Some (VStr "advice")
    /\ field "error" envelope = None.
Proof.
  destruct (invoke_returns_the_model_text nat echo
              (VDict [("prompt", VStr "  Analyze AAPL  ")])
              "Analyze AAPL" "advice" 0%nat 1%nat)
    as (envelope & metadata & stats & Hrun & Hresult & Herror & _).
  - vm_compute. reflexivity.
  - reflexivity.
  - exists envelope. split; [exact Hrun |]. split; assumption.
Defined.

(** X3.  When the payload is accepted and the model call raises, [invoke]
    answers an error envelope whose [error_type] is that of the first clause,
    in their order, whose class the exception is an instance of: an instance
    of [ValueError] raised by the model is reported as a validation error
    with its text; an instance of [RatelimitException] is [rate_limit_error]
    although it is an instance of [DuckDuckGoSearchException] too; an
    exception that is an instance of none of the eight classes with a clause
    of their own, a plain [OSError] for one, is [system_error], and only then
    does the metadata carry the class name.  [recoverable] is false in the
    [permission_error] and [system_error] clauses only. *)
Theorem invoke_error_type_by_class :
  forall (S : Type) (w : World AgentCall string S) (payload : pyval)
         (q : string) (e : exn) (st st1 : S),
    process_agentcore_payload payload = Returned q ->
    respond w (agent_call coordinator q []) st = (Raised e, st1) ->
    exists (envelope : pyval) (metadata : list (string * pyval)),
      run w (invoke payload) st
      = (Returned envelope, [(agent_call coordinator q [], Raised e)], snd (clock w st1))
      /\ field "result" envelope = None
      /\ field "error_type" envelope
         = Some (VStr
              (if isinstance e ValueError then "validation_error"
               else if isinstance e RatelimitException then "rate_limit_error"
               else if isinstance e DuckDuckGoSearchException then "web_search_error"
               else if isinstance e TypeError then "agent_parameter_error"
               else if isinstance e MemoryError then "memory_error"
               else if isinstance e ConnectionError then "connection_error"
               else if isinstance e TimeoutError then "timeout_error"
               else if isinstance e PermissionError then "permission_error"
               else "system_error"))
      /\ (isinstance e ValueError = true ->
          field "error" envelope
          = Some (VStr ("Invalid request format: " ++ exn_str e)))
      /\ field "metadata" envelope = Some (VDict metadata)
      /\ lookup "error_class" metadata
         = (if existsb (isinstance e) own_clause_classes then None
            else Some (VStr (class_name (exn_class e))))
      /\ lookup "recoverable" metadata
         = Some (VBool (existsb (isinstance e)
                          [ ValueError; RatelimitException; DuckDuckGoSearchException;
                            TypeError; MemoryError; ConnectionError; TimeoutError ])).
Proof.
  intros S w payload q e st st1 Hproc Hresp.
  destruct (run_invoke_failure w payload q e st st1 Hproc Hresp)
    as (msg & metadata & Hrun & Hmsg & Hclass & Hrec).
  eexists _, metadata. split; [exact Hrun |].
  simpl. split; [reflexivity |]. split; [reflexivity |].
  split; [intros Hc; rewrite (Hmsg Hc); reflexivity |].
  split; [reflexivity |]. split; assumption.
Qed.

(** A rate limit, a [ValueError] of the model, and a plain [OSError]. *)
Lemma invoke_error_type_by_class_witness :
  (forall envelope,
      result_of (run scripted (invoke (VDict [("prompt", VStr "Analyze AAPL")]))
                   (Raised (mk_exn RatelimitException "202 Ratelimit")))
      = Returned envelope ->
      field "error_type" envelope = Some (VStr "rate_limit_error"))
  /\ (forall envelope,
      result_of (run scripted (invoke (VDict [("prompt", VStr "Analyze AAPL")]))
                   (Raised (mk_exn ValueError "bad model id")))
      = Returned envelope ->
      field "error_type" envelope = Some (VStr "validation_error")
      /\ field "error" envelope = Some (VStr "Invalid request format: bad model id"))
  /\ (forall envelope,
      result_of (run scripted (invoke (VDict [("prompt", VStr "Analyze AAPL")]))
                   (Raised (mk_exn OSError "disk full")))
      = Returned envelope ->
      field "error_type" envelope = Some (VStr "system_error")).
Proof.
  split; [| split].
  - intros envelope Henv.
    destruct (invoke_error_type_by_class _ scripted
                (VDict [("prompt", VStr "Analyze AAPL")]) "Analyze AAPL"
                (mk_exn RatelimitException "202 Ratelimit")
                (Raised (mk_exn RatelimitException "202 Ratelimit"))
                (Raised (mk_exn RatelimitException "202 Ratelimit")))
      as (envelope' & metadata & Hrun & _ & Htype & _).
    + vm_compute. reflexivity.
    + reflexivity.
    + rewrite Hrun in Henv. unfold result_of in Henv. simpl in Henv.
      inversion Henv; subst envelope'. exact Htype.
  - intros envelope Henv.
    destruct (invoke_error_type_by_class _ scripted
                (VDict [("prompt", VStr "Analyze AAPL")]) "Analyze AAPL"
                (mk_exn ValueError "bad model id")
                (Raised (mk_exn ValueError "bad model id"))
                (Raised (mk_exn ValueError "bad model id")))
      as (envelope' & metadata & Hrun & _ & Htype & Hmsg & _).
    + vm_compute. reflexivity.
    + reflexivity.
    + rewrite Hrun in Henv. unfold result_of in Henv. simpl in Henv.
      inversion Henv; subst envelope'. split; [exact Htype | exact (Hmsg eq_refl)].
  - intros envelope Henv.
    destruct (invoke_error_type_by_class _ scripted
                (VDict [("prompt", VStr "Analyze AAPL")]) "Analyze AAPL"
                (mk_exn OSError "disk full")
                (Raised (mk_exn OSError "disk full"))
                (Raised (mk_exn OSError "disk full")))
      as (envelope' & metadata & Hrun & _ & Htype & _).
    + vm_compute. reflexivity.
    + reflexivity.
    + rewrite Hrun in Henv. unfold result_of in Henv. simpl in Henv.
      inversion Henv; subst envelope'. exact Htype.
Defined.

(** X4.  Except for a [ValueError], the error envelope does not depend on
    the text of the exception: two failures of the same class, read at the
    same time, give the same answer whatever their texts are. *)
Theorem invoke_error_envelope_hides_the_detail :
  forall (S1 S2 : Type) (w1 : World AgentCall string S1) (w2 : World AgentCall string S2)
         (payload : pyval) (q : string) (e1 e2 : exn)
         (st1 st1' : S1) (st2 st2' : S2),
    process_agentcore_payload payload = Returned q ->
    respond w1 (agent_call coordinator q []) st1 = (Raised e1, st1') ->
    respond w2 (agent_call coordinator q []) st2 = (Raised e2, st2') ->
    exn_class e1 = exn_class e2 ->
    exn_class e1 <> ValueError ->
    fst (clock w1 st1') = fst (clock w2 st2') ->
    result_of (run w1 (invoke payload) st1) = result_of (run w2 (invoke payload) st2).
Proof.
  intros S1 S2 w1 w2 payload q e1 e2 st1 st1' st2 st2' Hproc H1 H2 Hclass Hnot Hclock.
  unfold invoke. rewrite Hproc. simpl. rewrite H1, H2. simpl.
  rewrite !isinstance_Exception.
  destruct e1 as [c m1], e2 as [c2 m2]. simpl in Hclass, Hnot. subst c2.
  destruct c; simpl; try (contradiction Hnot; reflexivity);
    destruct (clock w1 st1') as [t1 s1]; destruct (clock w2 st2') as [t2 s2];
    simpl in Hclock; subst t2; reflexivity.
Qed.

Lemma invoke_error_envelope_hides_the_detail_witness :
  result_of (run scripted (invoke (VDict [("prompt", VStr "Analyze AAPL")]))
               (Raised (mk_exn ConnectionError "reset by peer 10.0.0.7")))
  = result_of (run scripted (invoke (VDict [("prompt", VStr "Analyze AAPL")]))
                 (Raised (mk_exn ConnectionError "name resolution failed"))).
Proof.
  apply (invoke_error_envelope_hides_the_detail _ _ scripted scripted
           (VDict [("prompt", VStr "Analyze AAPL")]) "Analyze AAPL"
           (mk_exn ConnectionError "reset by peer 10.0.0.7")
           (mk_exn ConnectionError "name resolution failed")
           _ (Raised (mk_exn ConnectionError "reset by peer 10.0.0.7"))
           _ (Raised (mk_exn ConnectionError "name resolution failed"))).
  - vm_compute. reflexivity.
  - reflexivity.
  - reflexivity.
  - reflexivity.
  - intros H. discriminate H.
  - reflexivity.
Defined.

(** X5.  [invoke_financial_advisor_with_logging] adds nothing to [analyze]:
    the same call, the same text when it returns, and the very exception,
    class and text, when it raises. *)
Theorem logging_wrapper_is_transparent :
  forall (S : Type) (w : World AgentCall string S) (user_query : string) (st : S),
    run w (invoke_financial_advisor_with_logging user_query) st
    = run w (analyze user_query) st.
Proof.
  intros S w user_query st.
  unfold invoke_financial_advisor_with_logging, analyze. simpl.
  destruct (respond w (agent_call coordinator user_query []) st) as [[text | e] st1]; simpl.
  - reflexivity.
  - rewrite isinstance_Exception. reflexivity.
Qed.

(* ================================================================== *)
(** * What the validator returns, and what it says when it refuses *)
(* ================================================================== *)

Lemma all_space_app (a b : string) :
  all_space (a ++ b) = all_space a && all_space b.
Proof.
  induction a as [| c a IH]; simpl.
  - reflexivity.
  - rewrite IH. apply andb_assoc.
Qed.

Lemma lstrip_split (s : string) :
  exists l, s = l ++ PyStr.lstrip s /\ all_space l = true.
Proof.
  induction s as [| c s IH]; simpl.
  - exists EmptyString. split; reflexivity.
  - destruct (PyStr.isspace c) eqn:Hc.
    + destruct IH as [l [Hs Hl]]. exists (String c l). split.
      * simpl. rewrite <- Hs. reflexivity.
      * simpl. rewrite Hc, Hl. reflexivity.
    + exists EmptyString. split; reflexivity.
Qed.

Lemma rstrip_split (s : string) :
  exists r, s = PyStr.rstrip s ++ r /\ all_space r = true.
Proof.
  induction s as [| c s IH]; simpl.
  - exists EmptyString. split; reflexivity.
  - destruct IH as [r [Hs Hr]].
    destruct (PyStr.isspace c) eqn:Hc; simpl.
    + destruct (PyStr.rstrip s) as [| d t] eqn:Ht; simpl.
      * exists (String c s). split; [reflexivity |].
        simpl. rewrite Hc. simpl in Hs. rewrite Hs. exact Hr.
      * exists r. split; [rewrite Hs at 1; reflexivity | exact Hr].
    + exists r. split; [rewrite Hs at 1; reflexivity | exact Hr].
Qed.

Lemma lstrip_first (s : string) :
  PyStr.lstrip s <> EmptyString -> first_not_space (PyStr.lstrip s) = true.
Proof.
  induction s as [| c s IH]; simpl; intros H.
  - contradiction H; reflexivity.
  - destruct (PyStr.isspace c) eqn:Hc.
    + apply IH. exact H.
    + simpl. rewrite Hc. reflexivity.
Qed.

Lemma rstrip_keeps_first (s : string) :
  first_not_space s = true -> first_not_space (PyStr.rstrip s) = true.
Proof.
  destruct s as [| c s]; simpl; intros H; [discriminate H |].
  apply negb_true_iff in H. rewrite H. simpl. rewrite H. reflexivity.
Qed.

Lemma rstrip_last (s : string) :
  PyStr.rstrip s <> EmptyString -> last_not_space (PyStr.rstrip s) = true.
Proof.
  induction s as [| c s IH]; simpl; intros H.
  - contradiction H; reflexivity.
  - destruct (PyStr.rstrip s) as [| d t] eqn:Ht.
    + destruct (PyStr.isspace c) eqn:Hc; simpl in *.
      * contradiction H; reflexivity.
      * rewrite Hc. reflexivity.
    + rewrite andb_false_r in *.
      change (last_not_space (String c (String d t))) with (last_not_space (String d t)).
      apply IH. intros Habs. discriminate Habs.
Qed.

Lemma lstrip_fixed (s : string) :
  first_not_space s = true -> PyStr.lstrip s = s.
Proof.
  destruct s as [| c s]; simpl; intros H; [reflexivity |].
  apply negb_true_iff in H. rewrite H. reflexivity.
Qed.

Lemma rstrip_fixed (s : string) :
  last_not_space s = true -> PyStr.rstrip s = s.
Proof.
  induction s as [| c s IH]; intros H; [reflexivity |].
  destruct s as [| d t].
  - simpl in H. apply negb_true_iff in H. simpl. rewrite H. reflexivity.
  - change (last_not_space (String c (String d t))) with (last_not_space (String d t)) in H.
    specialize (IH H).
    change (PyStr.rstrip (String c (String d t)))
      with (if PyStr.isspace c && PyStr.is_empty (PyStr.rstrip (String d t))
            then EmptyString else String c (PyStr.rstrip (String d t))).
    rewrite IH. simpl. rewrite andb_false_r. reflexivity.
Qed.

(** A trimmed text that is not empty begins and ends with a character that
    is not white space. *)
Lemma strip_ends (s : string) :
  PyStr.strip s <> EmptyString ->
  first_not_space (PyStr.strip s) = true /\ last_not_space (PyStr.strip s) = true.
Proof.
  unfold PyStr.strip. intros H. split.
  - apply rstrip_keeps_first. apply lstrip_first.
    intros Habs. rewrite Habs in H. apply H. reflexivity.
  - apply rstrip_last. exact H.
Qed.

Lemma strip_idempotent (s : string) :
  PyStr.strip (PyStr.strip s) = PyStr.strip s.
Proof.
  destruct (PyStr.is_empty (PyStr.strip s)) eqn:Hempty.
  - apply is_empty_true in Hempty. rewrite Hempty. reflexivity.
  - apply is_empty_false in Hempty. destruct (strip_ends s Hempty) as [Hfirst Hlast].
    unfold PyStr.strip at 1. rewrite (lstrip_fixed _ Hfirst). apply rstrip_fixed. exact Hlast.
Qed.

Lemma strip_split (s : string) :
  exists l r, s = l ++ PyStr.strip s ++ r /\ all_space l = true /\ all_space r = true.
Proof.
  destruct (lstrip_split s) as [l [Hl Hls]].
  destruct (rstrip_split (PyStr.lstrip s)) as [r [Hr Hrs]].
  exists l, r. unfold PyStr.strip. rewrite <- Hr. repeat split; assumption.
Qed.

(** What is behind an acceptance. *)
Lemma process_returned (payload : pyval) (q : string) :
  process_agentcore_payload payload = Returned q ->
  exists items text,
    payload = VDict items
    /\ get items "prompt" (VStr "") = VStr text
    /\ acceptable text
    /\ q = PyStr.strip text.
Proof.
  intros Hproc.
  destruct (is_dict payload) eqn:Hdict.
  - destruct payload as [| | | | | items |]; try discriminate Hdict.
    exists items.
    destruct (is_str (get items "prompt" (VStr ""))) eqn:Hstr.
    + destruct (get items "prompt" (VStr "")) as [| | | text | | |] eqn:Hget;
        try discriminate Hstr.
      exists text. split; [reflexivity |]. split; [reflexivity |].
      destruct (acceptable_or_not text) as [Hok | Hbad].
      * split; [exact Hok |].
        rewrite (process_accepts items text Hget Hok) in Hproc.
        inversion Hproc. reflexivity.
      * destruct (process_rejects items text Hget Hbad) as [e He].
        rewrite He in Hproc. discriminate Hproc.
    + rewrite (process_other_prompt items Hstr) in Hproc.
      destruct (truthy _); discriminate Hproc.
  - rewrite (process_not_a_dictionary payload Hdict) in Hproc. discriminate Hproc.
Qed.

(** X6.  What the validator returns is the prompt without the white space
    around it and nothing else: the prompt is that query between two runs of
    white space; the query is not empty, begins and ends with a character
    that is not white space, and is no longer than the prompt nor than 5000
    characters. *)
Theorem accepted_query_is_the_trimmed_prompt :
  forall (payload : pyval) (q : string),
    process_agentcore_payload payload = Returned q ->
    exists items text before after,
      payload = VDict items
      /\ lookup "prompt" items = Some (VStr text)
      /\ text = before ++ q ++ after
      /\ all_space before = true
      /\ all_space after = true
      /\ first_not_space q = true
      /\ last_not_space q = true
      /\ (1 <= String.length q <= 5000)%nat
      /\ (String.length q <= String.length text)%nat.
Proof.
  intros payload q Hproc.
  destruct (process_returned payload q Hproc) as (items & text & Hpay & Hget & Hok & Hq).
  destruct Hok as [Hne [Hlen _]]. rewrite <- Hq in Hne, Hlen.
  assert (Hlook : lookup "prompt" items = Some (VStr text)).
  { unfold get in Hget. destruct (lookup "prompt" items) as [v |].
    - rewrite Hget. reflexivity.
    - exfalso. apply Hne. rewrite Hq.
      inversion Hget as [Htext]. reflexivity. }
  destruct (strip_split text) as (before & after & Hsplit & Hb & Ha).
  rewrite <- Hq in Hsplit.
  exists items, text, before, after.
  split; [exact Hpay |]. split; [exact Hlook |].
  split; [exact Hsplit |]. split; [exact Hb |]. split; [exact Ha |].
  assert (Hends : first_not_space q = true /\ last_not_space q = true).
  { rewrite Hq. apply strip_ends. rewrite <- Hq. exact Hne. }
  split; [apply Hends |]. split; [apply Hends |].
  split.
  - split; [| exact Hlen]. destruct q; [contradiction Hne; reflexivity | simpl; lia].
  - rewrite Hq. apply strip_length.
Qed.

Lemma accepted_query_is_the_trimmed_prompt_witness :
  exists items text before after,
    VDict [("session", VStr "s-1"); ("prompt", VStr "  Analyze AAPL  ")] = VDict items
    /\ lookup "prompt" items = Some (VStr text)
    /\ text = before ++ "Analyze AAPL" ++ after
    /\ all_space before = true
    /\ all_space after = true.
Proof.
  destruct (accepted_query_is_the_trimmed_prompt
              (VDict [("session", VStr "s-1"); ("prompt", VStr "  Analyze AAPL  ")])
              "Analyze AAPL")
    as (items & text & before & after & H1 & H2 & H3 & H4 & H5 & _).
  - vm_compute. reflexivity.
  - exists items, text, before, after. repeat (split; [assumption |]). assumption.
Defined.

(** X7.  Validation is idempotent: a query the validator has returned is
    accepted as a prompt, and comes back unchanged. *)
Theorem validator_accepts_its_own_output :
  forall (payload : pyval) (q : string),
    process_agentcore_payload payload = Returned q ->
    process_agentcore_payload (VDict [("prompt", VStr q)]) = Returned q.
Proof.
  intros payload q Hproc.
  destruct (process_returned payload q Hproc) as (items & text & _ & _ & Hok & Hq).
  assert (Hfix : PyStr.strip q = q) by (rewrite Hq; apply strip_idempotent).
  rewrite <- Hfix at 2.
  apply process_accepts; [reflexivity |].
  unfold acceptable. rewrite Hfix. rewrite Hq. exact Hok.
Qed.

Lemma validator_accepts_its_own_output_witness :
  process_agentcore_payload (VDict [("prompt", VStr "Analyze AAPL")])
  = Returned "Analyze AAPL".
Proof.
  apply (validator_accepts_its_own_output
           (VDict [("prompt", VStr "  Analyze AAPL  ")])).
  vm_compute. reflexivity.
Defined.

Lemma get_of_lookup (items : list (string * pyval)) (v : pyval) :
  lookup "prompt" items = Some v -> get items "prompt" (VStr "") = v.
Proof.
  intros H. unfold get. rewrite H. reflexivity.
Qed.

(** X8.  Which refusal a string prompt gets, by the order of the checks: no
    [prompt] key, or an empty prompt, gets the missing-prompt guidance; a
    prompt of white space only gets the non-empty guidance; a prompt longer
    than 5000 characters after trimming gets the length message, whether or
    not it also holds a deny-listed pattern; a pattern is reported only
    within the length limit.  The six messages are pairwise different, so
    the message tells the cause. *)
Theorem refusal_message_by_cause :
  forall (items : list (string * pyval)),
    (lookup "prompt" items = None ->
       process_agentcore_payload (VDict items)
       = Raised (mk_exn ValueError missing_prompt_message))
    /\ (forall text,
         lookup "prompt" items = Some (VStr text) ->
         (text = EmptyString ->
            process_agentcore_payload (VDict items)
            = Raised (mk_exn ValueError missing_prompt_message))
         /\ (text <> EmptyString -> all_space text = true ->
            process_agentcore_payload (VDict items)
            = Raised (mk_exn ValueError whitespace_only_message))
         /\ ((MAX_INPUT_LENGTH < String.length (PyStr.strip text))%nat ->
            process_agentcore_payload (VDict items)
            = Raised (mk_exn ValueError too_long_message))
         /\ ((String.length (PyStr.strip text) <= MAX_INPUT_LENGTH)%nat ->
            (exists pattern, In pattern suspicious_patterns
               /\ PyStr.contains pattern (PyStr.lower (PyStr.strip text)) = true) ->
            process_agentcore_payload (VDict items)
            = Raised (mk_exn ValueError suspicious_message)))
    /\ NoDup [ missing_prompt_message; not_a_string_message; too_long_message;
               suspicious_message; whitespace_only_message;
               "Payload must be a dictionary" ].
Proof.
  intros items. split; [| split].
  - intros Hnone.
    assert (Hget : get items "prompt" (VStr "") = VStr "")
      by (unfold get; rewrite Hnone; reflexivity).
    rewrite (process_string_prompt items "" Hget). reflexivity.
  - intros text Hlook. apply get_of_lookup in Hlook.
    rewrite (process_string_prompt items text Hlook).
    split; [| split; [| split]].
    + intros ->. reflexivity.
    + intros Hne Hspace.
      apply is_empty_false in Hne. rewrite Hne.
      apply strip_empty in Hspace. rewrite Hspace. reflexivity.
    + intros Hlong.
      destruct (PyStr.is_empty text) eqn:Hempty.
      * apply is_empty_true in Hempty. subst text. simpl in Hlong. lia.
      * apply Nat.ltb_lt in Hlong. rewrite Hlong. reflexivity.
    + intros Hlen [pattern [Hin Hfound]].
      destruct (PyStr.is_empty text) eqn:Hempty.
      * apply is_empty_true in Hempty. subst text.
        simpl in Hin. decompose [or] Hin; subst; try contradiction; discriminate Hfound.
      * apply Nat.ltb_ge in Hlen. rewrite Hlen.
        assert (Hex : existsb
                        (fun pattern => PyStr.contains pattern (PyStr.lower (PyStr.strip text)))
                        suspicious_patterns = true)
          by (apply existsb_exists; exists pattern; split; assumption).
        rewrite Hex. reflexivity.
  - repeat (constructor;
            [ simpl; intros H;
              repeat (destruct H as [H | H]; [vm_compute in H; discriminate H |]);
              exact H
            | ]).
    constructor.
Qed.

(** A prompt of 6007 characters that begins with a deny-listed pattern is
    refused for its length. *)
Lemma refusal_message_by_cause_witness :
  process_agentcore_payload
    (VDict [("prompt", VStr ("<script" ++ PyStr.repeat "A"%char 6000))])
  = Raised (mk_exn ValueError "Query too long. Maximum 5000 characters allowed.")
  /\ process_agentcore_payload (VDict [("query", VStr "Analyze AAPL")])
     = Raised (mk_exn ValueError missing_prompt_message).
Proof.
  split.
  - apply (proj1 (proj2 (proj2
             (proj1 (proj2 (refusal_message_by_cause
                              [("prompt", VStr ("<script" ++ PyStr.repeat "A"%char 6000))]))
                ("<script" ++ PyStr.repeat "A"%char 6000) eq_refl)))).
    apply Nat.ltb_lt. vm_compute. reflexivity.
  - apply (proj1 (refusal_message_by_cause [("query", VStr "Analyze AAPL")])).
    reflexivity.
Defined.

(* ================================================================== *)
(** * More on invoke_agent *)
(* ================================================================== *)

Section InvokeAgentTrace.
Context {S : Type} (w : World AgentCall string S).
Variables (agent : Agent) (prompt : string).

(** The calls of the loop, from any list of shapes: a prefix of the calls
    with those shapes followed by the bare call, all but the last answered by
    a shape mismatch. *)
Lemma loop_calls_are_a_prefix (kws : list (list (string * pyval))) (st : S) :
  let tr := trace_of (run w (for_each kws (keyed_attempt agent prompt)
                               (bare_attempt agent prompt)) st) in
  map fst tr
  = firstn (List.length tr)
      (map (agent_call agent prompt) kws ++ [agent_call agent prompt []])%list
  /\ (forall i x, nth_error tr i = Some x -> (Datatypes.S i < List.length tr)%nat ->
        exists e, snd x = Raised e /\ isinstance e TypeError = true).
Proof.
  revert st. induction kws as [| kw kws IH]; intros st.
  - change (for_each [] (keyed_attempt agent prompt) (bare_attempt agent prompt))
      with (bare_attempt agent prompt).
    rewrite run_bare.
    destruct (respond w (agent_call agent prompt []) st) as [[s | e] st1];
      unfold trace_of; simpl; (split; [reflexivity |]);
      intros i x _ Hi; lia.
  - rewrite run_keyed_step.
    destruct (respond w (agent_call agent prompt kw) st) as [[s | e] st1].
    + unfold trace_of; simpl. split; [reflexivity |]. intros i x _ Hi. lia.
    + destruct (isinstance e TypeError) eqn:Hty.
      * specialize (IH st1).
        destruct (run w (for_each kws (keyed_attempt agent prompt)
                           (bare_attempt agent prompt)) st1) as [[res tr'] st2].
        unfold trace_of in *. simpl in *. destruct IH as [IHcalls IHerrs].
        split; [rewrite IHcalls; reflexivity |].
        intros i x Hnth Hi. destruct i as [| j].
        -- simpl in Hnth. inversion Hnth; subst x. exists e. split; [reflexivity | exact Hty].
        -- simpl in Hnth. apply (IHerrs j x Hnth). lia.
      * unfold trace_of; simpl. split; [reflexivity |]. intros i x _ Hi. lia.
Qed.

End InvokeAgentTrace.

(** X9.  Whatever the model does, the calls of [invoke_agent] are the first
    one to five of its five fixed calls, in their order, all to the same
    agent with the same prompt and budget; and every call but the last was
    answered by a [TypeError]. *)
Theorem invoke_agent_calls_are_a_prefix_of_its_attempts :
  forall (S : Type) (w : World AgentCall string S) (agent : Agent)
         (prompt : string) (max_tokens : Z) (st : S),
    let tr := trace_of (run w (invoke_agent agent prompt max_tokens) st) in
    (1 <= List.length tr <= 5)%nat
    /\ map fst tr = firstn (List.length tr) (attempts agent prompt max_tokens)
    /\ (forall i x, nth_error tr i = Some x -> (Datatypes.S i < List.length tr)%nat ->
          exists e, snd x = Raised e /\ isinstance e TypeError = true).
Proof.
  intros S w agent prompt max_tokens st tr.
  destruct (invoke_agent_returns w agent prompt max_tokens st)
    as (text & tr0 & st' & Hrun & Hlen & _).
  assert (Htr : tr = tr0) by (unfold tr; rewrite Hrun; reflexivity).
  split; [rewrite Htr; exact Hlen |].
  unfold tr. rewrite invoke_agent_loop.
  apply (loop_calls_are_a_prefix w agent prompt).
Qed.

(** X10.  The result of [invoke_agent] does not tell a failure from a
    success: a model whose first call fails with an exception that is not a
    [TypeError] and a model whose first call returns the corresponding
    failure message give the same result. *)
Theorem invoke_agent_result_does_not_tell_failure :
  forall (S1 S2 : Type) (w1 : World AgentCall string S1) (w2 : World AgentCall string S2)
         (agent : Agent) (prompt : string) (max_tokens : Z) (e : exn)
         (st1 st1' : S1) (st2 st2' : S2),
    let first := agent_call agent prompt [("max_output_tokens", VInt max_tokens)] in
    respond w1 first st1 = (Raised e, st1') ->
    isinstance e TypeError = false ->
    respond w2 first st2 = (Returned ("Agent invocation error: " ++ exn_str e), st2') ->
    result_of (run w1 (invoke_agent agent prompt max_tokens) st1)
    = result_of (run w2 (invoke_agent agent prompt max_tokens) st2).
Proof.
  intros S1 S2 w1 w2 agent prompt max_tokens e st1 st1' st2 st2' first H1 Hty H2.
  rewrite !invoke_agent_loop, !run_keyed_step.
  fold first. rewrite H1, H2, Hty. reflexivity.
Qed.

Lemma invoke_agent_result_does_not_tell_failure_witness :
  result_of (run scripted (invoke_agent risk_assessor "Assess" 2000)
               (Raised (mk_exn (UserError "ThrottlingException") "rate exceeded")))
  = result_of (run scripted (invoke_agent risk_assessor "Assess" 2000)
                 (Returned "Agent invocation error: rate exceeded")).
Proof.
  apply (invoke_agent_result_does_not_tell_failure _ _ scripted scripted
           risk_assessor "Assess" 2000
           (mk_exn (UserError "ThrottlingException") "rate exceeded")
           _ (Raised (mk_exn (UserError "ThrottlingException") "rate exceeded"))
           _ (Returned "Agent invocation error: rate exceeded")).
  - reflexivity.
  - reflexivity.
  - reflexivity.
Defined.

(* ================================================================== *)
(** * More on websearch *)
(* ================================================================== *)

(** X11.  What [websearch] returns is never empty: it is the provider's
    result when that is truthy, and a non-empty text in every other case, so
    it always passes a truth test. *)
Theorem websearch_result_is_never_empty :
  forall (S : Type) (w : World SearchCall pyval S)
         (keywords region : string) (max_results : option Z) (st : S),
  exists out,
    result_of (run w (websearch keywords region max_results) st) = Returned out
    /\ truthy out = true
    /\ (is_str out = true
        \/ fst (respond w (search_call keywords region max_results) st) = Returned out).
Proof.
  intros S w keywords region max_results st.
  rewrite run_websearch. unfold result_of. simpl.
  destruct (fst (respond w (search_call keywords region max_results) st)) as [v | e].
  - destruct (truthy v) eqn:Hv.
    + exists v. split; [reflexivity |]. split; [exact Hv | right; reflexivity].
    + eexists. split; [reflexivity |]. split; [reflexivity | left; reflexivity].
  - destruct (isinstance e RatelimitException);
      [| destruct (isinstance e DuckDuckGoSearchException)];
      (eexists; split; [reflexivity |]; split; [reflexivity | left; reflexivity]).
Qed.

(* ================================================================== *)
(** * More on the pipeline *)
(* ================================================================== *)

Lemma length_app (a b : string) :
  String.length (a ++ b) = (String.length a + String.length b)%nat.
Proof.
  induction a as [| c a IH]; simpl; [reflexivity | rewrite IH; reflexivity].
Qed.

Lemma execution_planner_prompt_length (ticker strategy_summary : string) :
  String.length (execution_planner_prompt ticker strategy_summary)
  = (273 + String.length ticker + String.length strategy_summary)%nat.
Proof.
  unfold execution_planner_prompt, PyStr.dq, PyStr.nl.
  rewrite !length_app. simpl String.length. lia.
Qed.

Lemma risk_assessor_prompt_length
      (ticker market_summary strategies_summary execution_plan : string) :
  String.length
    (risk_assessor_prompt ticker market_summary strategies_summary execution_plan)
  = (272 + String.length ticker + String.length market_summary
     + String.length strategies_summary + String.length execution_plan)%nat.
Proof.
  unfold risk_assessor_prompt, PyStr.dq, PyStr.nl.
  rewrite !length_app. simpl String.length. lia.
Qed.

Lemma slice_to_length_le (n : nat) (s : string) :
  (String.length (PyStr.slice_to n s) <= n)%nat.
Proof.
  rewrite slice_to_length. lia.
Qed.

(** X12.  In [run_complete_analysis] the prompts of the last two stages are
    bounded whatever the specialists return: an Execution prompt has at most
    273 + 2000 characters beside the ticker, a Risk prompt at most
    272 + 6000. *)
Theorem downstream_prompts_are_bounded :
  forall (S : Type) (w : World AgentCall string S)
         (ticker risk_attitude horizon : string) (lookback_days : Z) (st : S) x,
    In x (trace_of (run w (run_complete_analysis ticker risk_attitude horizon
                             lookback_days) st)) ->
    (callee (fst x) = execution_planner ->
       (String.length (prompt_of (fst x)) <= 273 + 2000 + String.length ticker)%nat)
    /\ (callee (fst x) = risk_assessor ->
       (String.length (prompt_of (fst x)) <= 272 + 3 * 2000 + String.length ticker)%nat).
Proof.
  intros S w ticker risk_attitude horizon lookback_days st x Hin.
  destruct (run_complete_analysis_stages w ticker risk_attitude horizon lookback_days st)
    as (market & strategies & execution & risk & tr1 & tr2 & tr3 & tr4
        & st1 & st2 & st3 & st4 & _ & _ & _ & _ & Hrun
        & [_ A1] & [_ A2] & [_ A3] & [_ A4]).
  rewrite Hrun in Hin. unfold trace_of in Hin. simpl in Hin.
  unfold all_to in *. rewrite Forall_forall in A1, A2, A3, A4.
  pose proof (slice_to_length_le 2000 market) as Lm.
  pose proof (slice_to_length_le 2000 strategies) as Ls.
  pose proof (slice_to_length_le 2000 execution) as Le.
  repeat (apply in_app_or in Hin; destruct Hin as [Hin | Hin]).
  - destruct (A1 x Hin) as [Hc _]. split; intros H; rewrite Hc in H; discriminate H.
  - destruct (A2 x Hin) as [Hc _]. split; intros H; rewrite Hc in H; discriminate H.
  - destruct (A3 x Hin) as [Hc Hp]. split; intros H; [| rewrite Hc in H; discriminate H].
    rewrite Hp, execution_planner_prompt_length. lia.
  - destruct (A4 x Hin) as [Hc Hp]. split; intros H; [rewrite Hc in H; discriminate H |].
    rewrite Hp, risk_assessor_prompt_length. lia.
Qed.

Lemma downstream_prompts_are_bounded_witness :
  Forall (fun x =>
            callee (fst x) = execution_planner ->
            (String.length (prompt_of (fst x)) <= 273 + 2000 + String.length "MSFT")%nat)
         (trace_of (run echo (run_complete_analysis "MSFT" "Conservative" "Short-term" 7)
                      0%nat)).
Proof.
  apply Forall_forall. intros x Hin.
  apply (proj1 (downstream_prompts_are_bounded nat echo "MSFT" "Conservative"
                  "Short-term" 7 0%nat x Hin)).
Defined.

(** X13.  A run of [run_complete_analysis] makes at least four and at most
    twenty calls to the model. *)
Theorem pipeline_makes_four_to_twenty_calls :
  forall (S : Type) (w : World AgentCall string S)
         (ticker risk_attitude horizon : string) (lookback_days : Z) (st : S),
    (4 <= List.length
            (trace_of (run w (run_complete_analysis ticker risk_attitude horizon
                                lookback_days) st))
     <= 20)%nat.
Proof.
  intros S w ticker risk_attitude horizon lookback_days st.
  destruct (run_complete_analysis_stages w ticker risk_attitude horizon lookback_days st)
    as (market & strategies & execution & risk & tr1 & tr2 & tr3 & tr4
        & st1 & st2 & st3 & st4 & H1 & H2 & H3 & H4 & Hrun
        & [L1 _] & [L2 _] & [L3 _] & [L4 _]).
  rewrite Hrun. unfold trace_of. simpl. rewrite !List.length_app.
  assert (U1 : (List.length tr1 <= 5)%nat).
  { destruct (invoke_agent_returns w market_intelligence
                (market_intel_prompt ticker lookback_days) TOKEN_CAP st)
      as (t & tr & s' & Hr & Hl & _).
    unfold market_intel_tool in H1. rewrite H1 in Hr. inversion Hr; subst. lia. }
  assert (U2 : (List.length tr2 <= 5)%nat).
  { destruct (invoke_agent_returns w strategy_architect
                (strategy_architect_prompt ticker risk_attitude horizon) TOKEN_CAP st1)
      as (t & tr & s' & Hr & Hl & _).
    unfold strategy_architect_tool in H2. rewrite H2 in Hr. inversion Hr; subst. lia. }
  assert (U3 : (List.length tr3 <= 5)%nat).
  { destruct (invoke_agent_returns w execution_planner
                (execution_planner_prompt ticker (PyStr.slice_to 2000 strategies))
                TOKEN_CAP st2)
      as (t & tr & s' & Hr & Hl & _).
    unfold execution_planner_tool in H3. rewrite H3 in Hr. inversion Hr; subst. lia. }
  assert (U4 : (List.length tr4 <= 5)%nat).
  { destruct (invoke_agent_returns w risk_assessor
                (risk_assessor_prompt ticker (PyStr.slice_to 2000 market)
                   (PyStr.slice_to 2000 strategies) (PyStr.slice_to 2000 execution))
                TOKEN_CAP st3)
      as (t & tr & s' & Hr & Hl & _).
    unfold risk_assessor_tool in H4. rewrite H4 in Hr. inversion Hr; subst. lia. }
  lia.
Qed.

(** X14.  A failed stage is neither retried nor fatal.  When the first call
    of the Market stage fails with an exception that is not a [TypeError],
    that call is the only one to the market specialist; the failure message
    becomes the [market_analysis] of the result, the three other stages run,
    and the Risk prompt carries the message, cut like any other text. *)
Theorem failed_stage_flows_downstream :
  forall (S : Type) (w : World AgentCall string S)
         (ticker risk_attitude horizon : string) (lookback_days : Z)
         (e : exn) (st st1 : S),
    let first :=
      agent_call market_intelligence (market_intel_prompt ticker lookback_days)
        [("max_output_tokens", VInt 2000)] in
    let message := "Agent invocation error: " ++ exn_str e in
    respond w first st = (Raised e, st1) ->
    isinstance e TypeError = false ->
    exists (strategies execution risk : string) (rest : Trace AgentCall string) (st' : S),
      run w (run_complete_analysis ticker risk_attitude horizon lookback_days) st
      = (Returned (VDict
           [ ("ticker", VStr ticker);
             ("risk_attitude", VStr risk_attitude);
             ("horizon", VStr horizon);
             ("market_analysis", VStr message);
             ("strategies", VStr strategies);
             ("execution_plan", VStr execution);
             ("risk_assessment", VStr risk) ]),
         (first, Raised e) :: rest, st')
      /\ Forall (fun x => callee (fst x) <> market_intelligence) rest
      /\ (exists x, In x rest /\ callee (fst x) = strategy_architect)
      /\ (exists x, In x rest /\ callee (fst x) = execution_planner)
      /\ (exists x, In x rest /\ callee (fst x) = risk_assessor
            /\ prompt_of (fst x)
               = risk_assessor_prompt ticker (PyStr.slice_to 2000 message)
                   (PyStr.slice_to 2000 strategies) (PyStr.slice_to 2000 execution)).
Proof.
  intros S w ticker risk_attitude horizon lookback_days e st st1 first message Hresp Hty.
  destruct (run_complete_analysis_stages w ticker risk_attitude horizon lookback_days st)
    as (market & strategies & execution & risk & tr1 & tr2 & tr3 & tr4
        & st1' & st2 & st3 & st4 & H1 & _ & _ & _ & Hrun
        & [_ _] & [L2 A2] & [L3 A3] & [L4 A4]).
  assert (Hmarket : run w (market_intel_tool ticker lookback_days) st
                    = (Returned message, [(first, Raised e)], st1)).
  { unfold market_intel_tool, TOKEN_CAP. rewrite invoke_agent_loop, run_keyed_step.
    unfold first in Hresp. rewrite Hresp, Hty. reflexivity. }
  rewrite Hmarket in H1. inversion H1; subst market tr1 st1'. clear H1.
  exists strategies, execution, risk, (tr2 ++ tr3 ++ tr4)%list, st4.
  split; [exact Hrun |].
  unfold all_to in *.
  split.
  { apply Forall_app. split; [| apply Forall_app; split].
    - eapply Forall_impl; [| exact A2]. intros x [Hc _] Habs.
      rewrite Hc in Habs. discriminate Habs.
    - eapply Forall_impl; [| exact A3]. intros x [Hc _] Habs.
      rewrite Hc in Habs. discriminate Habs.
    - eapply Forall_impl; [| exact A4]. intros x [Hc _] Habs.
      rewrite Hc in Habs. discriminate Habs. }
  rewrite Forall_forall in A2, A3, A4.
  split; [| split].
  - destruct tr2 as [| x tr2]; [simpl in L2; lia |].
    exists x. split; [left; reflexivity | apply (A2 x); left; reflexivity].
  - destruct tr3 as [| x tr3]; [simpl in L3; lia |].
    exists x. split.
    + apply in_or_app; right. left; reflexivity.
    + apply (A3 x); left; reflexivity.
  - destruct tr4 as [| x tr4]; [simpl in L4; lia |].
    exists x. split.
    + apply in_or_app; right. apply in_or_app; right. left; reflexivity.
    + apply (A4 x); left; reflexivity.
Qed.

Lemma failed_stage_flows_downstream_witness :
  exists strategies execution risk rest st',
    run third_shape_only (run_complete_analysis "MSFT" "Conservative" "Short-term" 7) 0%nat
    = (Returned (VDict
         [ ("ticker", VStr "MSFT");
           ("risk_attitude", VStr "Conservative");
           ("horizon", VStr "Short-term");
           ("market_analysis", VStr "Agent invocation error: rate exceeded");
           ("strategies", VStr strategies);
           ("execution_plan", VStr execution);
           ("risk_assessment", VStr risk) ]),
       (agent_call market_intelligence (market_intel_prompt "MSFT" 7)
          [("max_output_tokens", VInt 2000)],
        Raised (mk_exn (UserError "ThrottlingException") "rate exceeded")) :: rest, st')
    /\ Forall (fun x => callee (fst x) <> market_intelligence) rest.
Proof.
  destruct (failed_stage_flows_downstream nat third_shape_only
              "MSFT" "Conservative" "Short-term" 7
              (mk_exn (UserError "ThrottlingException") "rate exceeded") 0%nat 1%nat)
    as (strategies & execution & risk & rest & st' & Hrun & Hrest & _).
  - reflexivity.
  - reflexivity.
  - exists strategies, execution, risk, rest, st'. split; assumption.
Defined.

Lemma firstn_incl {A : Type} (n : nat) (l : list A) (x : A) :
  In x (firstn n l) -> In x l.
Proof.
  revert l. induction n as [| n IH]; intros l H; [contradiction H |].
  destruct l as [| a l]; [contradiction H |].
  simpl in H. destruct H as [H | H]; [left; exact H | right; apply IH; exact H].
Qed.

Lemma invoke_agent_call_is_an_attempt
      {S : Type} (w : World AgentCall string S) (agent : Agent) (prompt : string)
      (max_tokens : Z) (st : S) (x : AgentCall * Result string) :
  In x (trace_of (run w (invoke_agent agent prompt max_tokens) st)) ->
  In (fst x) (attempts agent prompt max_tokens).
Proof.
  intros Hin. rewrite invoke_agent_loop in Hin.
  destruct (loop_calls_are_a_prefix w agent prompt
              [ [("max_output_tokens", VInt max_tokens)];
                [("max_tokens", VInt max_tokens)];
                [("generation_config", VDict [("max_output_tokens", VInt max_tokens)])];
                [("inference_params", VDict [("max_tokens", VInt max_tokens)])] ] st)
    as [Hcalls _].
  apply (in_map fst) in Hin. rewrite Hcalls in Hin.
  apply firstn_incl in Hin. exact Hin.
Qed.

(** X15.  Every call [run_complete_analysis] makes passes the budget of 2000
    tokens, under one of the four parameter names, or passes no optional
    parameter at all; it never calls the coordinator. *)
Theorem pipeline_calls_carry_the_token_cap :
  forall (S : Type) (w : World AgentCall string S)
         (ticker risk_attitude horizon : string) (lookback_days : Z) (st : S) x,
    In x (trace_of (run w (run_complete_analysis ticker risk_attitude horizon
                             lookback_days) st)) ->
    In (kwargs_of (fst x))
       [ [("max_output_tokens", VInt 2000)];
         [("max_tokens", VInt 2000)];
         [("generation_config", VDict [("max_output_tokens", VInt 2000)])];
         [("inference_params", VDict [("max_tokens", VInt 2000)])];
         [] ]
    /\ callee (fst x) <> coordinator.
Proof.
  intros S w ticker risk_attitude horizon lookback_days st x Hin.
  destruct (run_complete_analysis_stages w ticker risk_attitude horizon lookback_days st)
    as (market & strategies & execution & risk & tr1 & tr2 & tr3 & tr4
        & st1 & st2 & st3 & st4 & H1 & H2 & H3 & H4 & Hrun
        & [_ A1] & [_ A2] & [_ A3] & [_ A4]).
  rewrite Hrun in Hin. unfold trace_of in Hin. simpl in Hin.
  unfold all_to in *. rewrite Forall_forall in A1, A2, A3, A4.
  assert (Hshape : forall agent prompt,
             In (fst x) (attempts agent prompt TOKEN_CAP) ->
             In (kwargs_of (fst x))
                [ [("max_output_tokens", VInt 2000)];
                  [("max_tokens", VInt 2000)];
                  [("generation_config", VDict [("max_output_tokens", VInt 2000)])];
                  [("inference_params", VDict [("max_tokens", VInt 2000)])];
                  [] ]).
  { intros agent prompt Hx. unfold attempts in Hx. simpl in Hx.
    decompose [or] Hx; try contradiction;
      match goal with H : _ = fst x |- _ => rewrite <- H end; simpl; auto 6. }
  repeat (apply in_app_or in Hin; destruct Hin as [Hin | Hin]).
  - split.
    + apply (Hshape market_intelligence (market_intel_prompt ticker lookback_days)).
      apply (invoke_agent_call_is_an_attempt w _ _ _ st).
      unfold market_intel_tool in H1. rewrite H1. exact Hin.
    + destruct (A1 x Hin) as [Hc _]. rewrite Hc. discriminate.
  - split.
    + apply (Hshape strategy_architect
               (strategy_architect_prompt ticker risk_attitude horizon)).
      apply (invoke_agent_call_is_an_attempt w _ _ _ st1).
      unfold strategy_architect_tool in H2. rewrite H2. exact Hin.
    + destruct (A2 x Hin) as [Hc _]. rewrite Hc. discriminate.
  - split.
    + apply (Hshape execution_planner
               (execution_planner_prompt ticker (PyStr.slice_to 2000 strategies))).
      apply (invoke_agent_call_is_an_attempt w _ _ _ st2).
      unfold execution_planner_tool in H3. rewrite H3. exact Hin.
    + destruct (A3 x Hin) as [Hc _]. rewrite Hc. discriminate.
  - split.
    + apply (Hshape risk_assessor
               (risk_assessor_prompt ticker (PyStr.slice_to 2000 market)
                  (PyStr.slice_to 2000 strategies) (PyStr.slice_to 2000 execution))).
      apply (invoke_agent_call_is_an_attempt w _ _ _ st3).
      unfold risk_assessor_tool in H4. rewrite H4. exact Hin.
    + destruct (A4 x Hin) as [Hc _]. rewrite Hc. discriminate.
Qed.

Lemma pipeline_calls_carry_the_token_cap_witness :
  Forall (fun x =>
            In (kwargs_of (fst x))
               [ [("max_output_tokens", VInt 2000)];
                 [("max_tokens", VInt 2000)];
                 [("generation_config", VDict [("max_output_tokens", VInt 2000)])];
                 [("inference_params", VDict [("max_tokens", VInt 2000)])];
                 [] ]
            /\ callee (fst x) <> coordinator)
         (trace_of (run third_shape_only
                      (run_complete_analysis "MSFT" "Conservative" "Short-term" 7) 0%nat)).
Proof.
  apply Forall_forall. intros x Hin.
  apply (pipeline_calls_carry_the_token_cap nat third_shape_only "MSFT" "Conservative"
           "Short-term" 7 0%nat x Hin).
Defined.

(** X16.  The cut to 2000 characters belongs to [run_complete_analysis]
    only.  Called on their own, [get_execution_plan] and
    [get_risk_assessment] put the texts they are given into the prompt in
    full, so the prompt grows with them without a bound. *)
Theorem single_stage_entry_points_do_not_cut :
  forall (S : Type) (w : World AgentCall string S) (st : S)
         (ticker market_summary strategies_summary execution_plan : string) x,
    (In x (trace_of (run w (get_execution_plan ticker strategies_summary) st)) ->
       callee (fst x) = execution_planner
       /\ prompt_of (fst x) = execution_planner_prompt ticker strategies_summary
       /\ String.length (prompt_of (fst x))
          = (273 + String.length ticker + String.length strategies_summary)%nat)
    /\ (In x (trace_of (run w (get_risk_assessment ticker market_summary
                                strategies_summary execution_plan) st)) ->
       callee (fst x) = risk_assessor
       /\ prompt_of (fst x)
          = risk_assessor_prompt ticker market_summary strategies_summary execution_plan
       /\ String.length (prompt_of (fst x))
          = (272 + String.length ticker + String.length market_summary
             + String.length strategies_summary + String.length execution_plan)%nat).
Proof.
  intros S w st ticker market_summary strategies_summary execution_plan x. split.
  - intros Hin. unfold get_execution_plan, execution_planner_tool in Hin.
    destruct (invoke_agent_returns w execution_planner
                (execution_planner_prompt ticker strategies_summary) TOKEN_CAP st)
      as (text & tr & st' & Hrun & _ & Hall & _).
    rewrite Hrun in Hin. unfold trace_of in Hin. simpl in Hin.
    unfold all_to in Hall. rewrite Forall_forall in Hall.
    destruct (Hall x Hin) as [Hc Hp].
    split; [exact Hc |]. split; [exact Hp |].
    rewrite Hp. apply execution_planner_prompt_length.
  - intros Hin. unfold get_risk_assessment, risk_assessor_tool in Hin.
    destruct (invoke_agent_returns w risk_assessor
                (risk_assessor_prompt ticker market_summary strategies_summary
                   execution_plan) TOKEN_CAP st)
      as (text & tr & st' & Hrun & _ & Hall & _).
    rewrite Hrun in Hin. unfold trace_of in Hin. simpl in Hin.
    unfold all_to in Hall. rewrite Forall_forall in Hall.
    destruct (Hall x Hin) as [Hc Hp].
    split; [exact Hc |]. split; [exact Hp |].
    rewrite Hp. apply risk_assessor_prompt_length.
Qed.

(** A plan is asked for 2500 characters of strategies: the prompt has 2777. *)
Lemma single_stage_entry_points_do_not_cut_witness :
  Forall (fun x => String.length (prompt_of (fst x)) = (273 + 4 + 2500)%nat)
         (trace_of (run echo (get_execution_plan "MSFT" (PyStr.repeat "s"%char 2500)) 0%nat)).
Proof.
  apply Forall_forall. intros x Hin.
  destruct (proj1 (single_stage_entry_points_do_not_cut nat echo 0%nat "MSFT"
                     EmptyString (PyStr.repeat "s"%char 2500) EmptyString x) Hin)
    as (_ & _ & Hlen).
  rewrite Hlen.
  replace (String.length (PyStr.repeat "s"%char 2500)) with 2500%nat
    by (vm_compute; reflexivity).
  reflexivity.
Defined.
